(** * time-machine: settings resolution and revision file names

    A shallow embedding of [src/history.settings.ts] (class [HistorySettings])
    and of the revision file-name codec of the history controller, together
    with the properties stated about them.

    Conventions of the embedding.
    - A JavaScript string is a [string]; one [ascii] stands for one UTF-16
      code unit below 256.
    - A value read from the configuration is a [JsValue]: the code tests
      [typeof] at run time, so the embedding keeps the dynamic type.
      Numbers are integers ([Z]).
    - Everything the class obtains from the editor, from Node or from the
      [is-path-inside] package is a field of [Host].
    - Messages shown to the user are collected in a list of [Effect]s; the
      command run when the user answers a warning is outside the embedding.
    - An exception is the [TypeError] completion. *)

From Stdlib Require Import ZArith String Ascii List Lia Bool.
From stdpp Require Import base option list gmap strings.

Local Open Scope string_scope.
Local Open Scope nat_scope.
Local Open Scope list_scope.

(* stdpp freezes the string append for [simpl]; the proofs below compute with it. *)
Local Arguments String.append : simpl nomatch.

(* ================================================================== *)
(** * JavaScript values and the string primitives the sources call     *)
(* ================================================================== *)

Module Js.

Inductive JsValue : Type :=
| VUndefined
| VNull
| VBool (b : bool)
| VNum (n : Z)
| VStr (s : string)
| VArr (l : list string).

(** ToBoolean. *)
Definition truthy (v : JsValue) : bool :=
  match v with
  | VUndefined | VNull => false
  | VBool b => b
  | VNum n => negb (n =? 0)%Z
  | VStr s => negb (String.eqb s "")
  | VArr _ => true
  end.

(** [a || b]. *)
Definition or_else (a b : JsValue) : JsValue := if truthy a then a else b.

Definition typeof_boolean (v : JsValue) : bool :=
  match v with VBool _ => true | _ => false end.

Definition typeof_string (v : JsValue) : bool :=
  match v with VStr _ => true | _ => false end.

(** [v === n] for a number literal [n]. *)
Definition strict_eq_num (v : JsValue) (n : Z) : bool :=
  match v with VNum m => (m =? n)%Z | _ => false end.

(** [v != null && v !== ''] (line 208 of history.settings.ts). *)
Definition not_nullish_nor_empty (v : JsValue) : bool :=
  match v with
  | VUndefined | VNull => false
  | VStr s => negb (String.eqb s "")
  | _ => true
  end.

(** [!x] for an optional object. *)
Definition is_undefined {A : Type} (x : option A) : bool :=
  match x with Some _ => false | None => true end.

(** The result of a function, or a statement that may throw. *)
Inductive Completion (A : Type) : Type :=
| Normal (a : A)
| TypeError.
Arguments Normal {A} a.
Arguments TypeError {A}.

(** ** Characters *)

Definition code (c : ascii) : nat := nat_of_ascii c.

Definition is_char (c : ascii) (n : nat) : bool := code c =? n.

(** [\s] restricted to code units below 256: TAB, LF, VT, FF, CR, SP, NBSP. *)
Definition is_white_space (c : ascii) : bool :=
  let n := code c in
  ((9 <=? n) && (n <=? 13)) || (n =? 32) || (n =? 160).

(** Line terminators below 256 (the characters [.] does not match). *)
Definition is_line_terminator (c : ascii) : bool :=
  let n := code c in (n =? 10) || (n =? 13).

Definition is_digit (c : ascii) : bool :=
  let n := code c in (48 <=? n) && (n <=? 57).

Definition digit_value (c : ascii) : nat := code c - 48.

(** Canonicalisation of the [/i] flag on the ASCII letters. *)
Definition to_lower (c : ascii) : ascii :=
  let n := code c in
  if (65 <=? n) && (n <=? 90) then ascii_of_nat (n + 32) else c.

Fixpoint drop_while (p : ascii -> bool) (s : string) : string :=
  match s with
  | EmptyString => EmptyString
  | String c r => if p c then drop_while p r else s
  end.

Fixpoint take_while (p : ascii -> bool) (s : string) : string :=
  match s with
  | EmptyString => EmptyString
  | String c r => if p c then String c (take_while p r) else EmptyString
  end.

Fixpoint drop (n : nat) (s : string) : string :=
  match n, s with
  | O, _ => s
  | S _, EmptyString => EmptyString
  | S m, String _ r => drop m r
  end.

Fixpoint take (n : nat) (s : string) : string :=
  match n, s with
  | O, _ => EmptyString
  | S _, EmptyString => EmptyString
  | S m, String c r => String c (take m r)
  end.

(** Some character of [s] has code [n]. *)
Fixpoint has_char (n : nat) (s : string) : bool :=
  match s with
  | EmptyString => false
  | String c r => is_char c n || has_char n r
  end.

(** [s.slice(0, -2)]. *)
Definition slice_0_minus2 (s : string) : string := take (String.length s - 2) s.

Fixpoint starts_with (p s : string) : bool :=
  match p, s with
  | EmptyString, _ => true
  | String _ _, EmptyString => false
  | String a p', String b s' => Ascii.eqb a b && starts_with p' s'
  end.

(** [s.indexOf(p)]; [None] stands for -1. *)
Fixpoint index_of (p s : string) : option nat :=
  if starts_with p s then Some 0
  else match s with
       | EmptyString => None
       | String _ r => option_map S (index_of p r)
       end.

(** ** GetSubstitution
    Expansion of a replacement *string* for a match without capture groups:
    [$$], [$&], [$`] and [$'] are patterns, every other [$] is literal. *)
Fixpoint get_substitution (matched before after repl : string) : string :=
  match repl with
  | EmptyString => EmptyString
  | String c r =>
      if is_char c 36 then
        match r with
        | EmptyString => String c EmptyString
        | String d r' =>
            if is_char d 36 then String d (get_substitution matched before after r')
            else if is_char d 38 then matched +:+ get_substitution matched before after r'
            else if is_char d 96 then before +:+ get_substitution matched before after r'
            else if is_char d 39 then after +:+ get_substitution matched before after r'
            else String c (get_substitution matched before after r)
        end
      else String c (get_substitution matched before after r)
  end.

(** [s.replace(pattern, repl)] with a string pattern: the first occurrence. *)
Definition replace_first (s pattern repl : string) : string :=
  match index_of pattern s with
  | None => s
  | Some i =>
      let before := take i s in
      let after := drop (i + String.length pattern) s in
      before +:+ get_substitution pattern before after repl +:+ after
  end.

(** [s.replace(/^~/, repl)]. *)
Definition replace_leading_tilde (s repl : string) : string :=
  match s with
  | String c r =>
      if is_char c 126
      then get_substitution (String c EmptyString) EmptyString r repl +:+ r
      else s
  | EmptyString => s
  end.

(** [s.replace(/\//g, sep)] for a one-character [sep]. *)
Fixpoint replace_slashes (sep : ascii) (s : string) : string :=
  match s with
  | EmptyString => EmptyString
  | String c r => String (if is_char c 47 then sep else c) (replace_slashes sep r)
  end.

(** ** The regular expression [/%([^%]+)%/g] *)

(** The characters before the first [%] of [s]; [None] when [s] has none. *)
Fixpoint until_percent (s : string) : option string :=
  match s with
  | EmptyString => None
  | String c r =>
      if is_char c 37 then Some EmptyString
      else option_map (String c) (until_percent r)
  end.

(** A match of [%([^%]+)%] anchored at the head of [s]: the captured key. *)
Definition percent_token_at (s : string) : option string :=
  match s with
  | String c r =>
      if is_char c 37 then
        match until_percent r with
        | Some (String k ks) => Some (String k ks)
        | _ => None
        end
      else None
  | EmptyString => None
  end.

(** [s.replace(/%([^%]+)%/g, (_, key) => f key)].  At every position the
    expression is tried; on a match the (stringified) result of the callback
    is emitted and the scan resumes after the match ([skip] counts the
    characters of the match still to pass over). *)
Fixpoint replace_percent_tokens (f : string -> string) (skip : nat) (s : string) : string :=
  match s with
  | EmptyString => EmptyString
  | String c r =>
      match skip with
      | S n => replace_percent_tokens f n r
      | O =>
          match percent_token_at s with
          | Some key => f key +:+ replace_percent_tokens f (S (String.length key)) r
          | None => String c (replace_percent_tokens f 0 r)
          end
      end
  end.

(** ToString of the callback's result [process.env[key]]: a missing
    variable is [undefined], which stringifies to the word. *)
Definition to_string_or_undefined (v : option string) : string :=
  match v with Some s => s | None => "undefined" end.

(** ** The regular expression of line 137
    The literal dollar, brace and [workspaceFolder] (flag [i]); an optional
    group made of white space, a colon, white space and a captured greedy
    run of any characters but line terminators; the closing brace. *)

Record RegExpMatch : Type := {
  m_index : nat;             (* match.index *)
  m_0 : string;              (* match[0] *)
  m_1 : option string        (* match[1]; [None] is undefined *)
}.

(** Case-insensitive literal prefix: what remains of [s] after [lit]. *)
Fixpoint strip_prefix_ci (lit s : string) : option string :=
  match lit, s with
  | EmptyString, _ => Some s
  | String _ _, EmptyString => None
  | String a lit', String b s' =>
      if Ascii.eqb (to_lower a) (to_lower b) then strip_prefix_ci lit' s' else None
  end.

(** Position of the last [}] of [s]. *)
Fixpoint last_brace (s : string) : option nat :=
  match s with
  | EmptyString => None
  | String c r =>
      match last_brace r with
      | Some i => Some (S i)
      | None => if is_char c 125 then Some 0 else None
      end
  end.

(** The optional group followed by the closing brace, anchored at [s]:
    number of characters consumed (closing brace included) and the capture.
    both white-space runs and the capture are greedy, and the capture stops
    at a line terminator. *)
Definition qualifier_at (s : string) : option (nat * string) :=
  let s1 := drop_while is_white_space s in
  match s1 with
  | String c s2 =>
      if is_char c 58 then
        let s3 := drop_while is_white_space s2 in
        let line := take_while (fun x => negb (is_line_terminator x)) s3 in
        match last_brace line with
        | Some k => Some (String.length s - String.length s3 + k + 1, take k line)
        | None => None
        end
      else None
  | EmptyString => None
  end.

(** The whole expression anchored at the head of [s]. *)
Definition workspace_token_at (s : string) : option (string * option string) :=
  match strip_prefix_ci "${workspaceFolder" s with
  | None => None
  | Some rest =>
      match qualifier_at rest with
      | Some (n, q) => Some (take (17 + n) s, Some q)
      | None =>
          match rest with
          | String c _ => if is_char c 125 then Some (take 18 s, None) else None
          | EmptyString => None
          end
      end
  end.

(** [s.match(re)] for that expression: the leftmost match. *)
Fixpoint match_workspace_token (s : string) : option RegExpMatch :=
  match workspace_token_at s with
  | Some (m0, m1) => Some {| m_index := 0; m_0 := m0; m_1 := m1 |}
  | None =>
      match s with
      | EmptyString => None
      | String _ r =>
          match match_workspace_token r with
          | Some m => Some {| m_index := S (m_index m); m_0 := m_0 m; m_1 := m_1 m |}
          | None => None
          end
      end
  end.

(** ** [Number.parseInt(s, 10)]
    Leading white space, an optional sign, then the longest run of decimal
    digits; [None] is NaN.  The value is exact (no rounding above 2^53). *)
Fixpoint digits_value (acc : Z) (s : string) : Z :=
  match s with
  | String c r => if is_digit c then digits_value (10 * acc + Z.of_nat (digit_value c)) r else acc
  | EmptyString => acc
  end.

Definition starts_with_digit (s : string) : bool :=
  match s with String c _ => is_digit c | EmptyString => false end.

Definition parseInt10 (s : string) : option Z :=
  let t := drop_while is_white_space s in
  match t with
  | String c r =>
      if is_char c 45 then
        if starts_with_digit r then Some (- digits_value 0 r)%Z else None
      else if is_char c 43 then
        if starts_with_digit r then Some (digits_value 0 r) else None
      else if is_digit c then Some (digits_value 0 t) else None
  | EmptyString => None
  end.

End Js.

Export Js.

(* ================================================================== *)
(** * Node's [path] module, POSIX flavour                              *)
(* ================================================================== *)

Module PosixPath.

(** The segments of a path between slashes (empty segments included). *)
Fixpoint segments (s : string) : list string :=
  match s with
  | EmptyString => [EmptyString]
  | String c r =>
      if is_char c 47 then EmptyString :: segments r
      else match segments r with
           | seg :: rest => String c seg :: rest
           | [] => [String c EmptyString]
           end
  end.

(** One step of [normalizeString]: the stack holds the kept segments, the
    last one first. *)
Definition push_segment (allowAboveRoot : bool) (stack : list string) (seg : string)
  : list string :=
  if String.eqb seg "" || String.eqb seg "." then stack
  else if String.eqb seg ".." then
    match stack with
    | top :: rest =>
        if String.eqb top ".."
        then (if allowAboveRoot then seg :: stack else stack)
        else rest
    | [] => if allowAboveRoot then [seg] else []
    end
  else seg :: stack.

Fixpoint join_with_slash (l : list string) : string :=
  match l with
  | [] => EmptyString
  | [x] => x
  | x :: rest => x +:+ "/" +:+ join_with_slash rest
  end.

Definition normalizeString (path : string) (allowAboveRoot : bool) : string :=
  join_with_slash (rev (fold_left (push_segment allowAboveRoot) (segments path) [])).

Definition is_absolute (path : string) : bool := starts_with "/" path.

Fixpoint ends_with_slash (path : string) : bool :=
  match path with
  | EmptyString => false
  | String c EmptyString => is_char c 47
  | String _ r => ends_with_slash r
  end.

(** [path.posix.normalize]. *)
Definition normalize (path : string) : string :=
  match path with
  | EmptyString => "."
  | _ =>
      let isAbsolute := is_absolute path in
      let trailingSeparator := ends_with_slash path in
      match normalizeString path (negb isAbsolute) with
      | EmptyString =>
          if isAbsolute then "/" else if trailingSeparator then "./" else "."
      | String c r =>
          let p := String c r +:+ (if trailingSeparator then "/" else "") in
          if isAbsolute then String "/" p else p
      end
  end.

(** [path.posix.join(...args)]: empty arguments are skipped. *)
Definition join (args : list string) : string :=
  match List.filter (fun a => negb (String.eqb a "")) args with
  | [] => "."
  | parts => normalize (join_with_slash parts)
  end.

(** [path.posix.basename(p)]: the last non-empty segment. *)
Definition basename (p : string) : string :=
  List.last (List.filter (fun a => negb (String.eqb a "")) (segments p)) EmptyString.

Definition sep : ascii := "/"%char.

End PosixPath.

(* ================================================================== *)
(** * The environment of the extension                                 *)
(* ================================================================== *)

(** [vscode.Uri], reduced to the only property the class reads. *)
Record Uri : Type := { fsPath : string }.

(** [vscode.WorkspaceFolder]. *)
Record WorkspaceFolder : Type := {
  wf_uri : Uri;
  wf_name : string;
  wf_index : nat
}.

(** [vscode.window.showWarningMessage] and [showErrorMessage]. *)
Inductive Effect : Type :=
| WarningMessage (text : string)
| ErrorMessage (text : string).

(** What the class reads from outside itself. *)
Record Host : Type := {
  (** [vscode.workspace.getConfiguration('time-machine')]: key to value *)
  configuration : gmap string JsValue;
  (** [vscode.workspace.getWorkspaceFolder(vscode.Uri.file(p))] *)
  getWorkspaceFolder : string -> option WorkspaceFolder;
  (** [vscode.workspace.workspaceFolders]; [None] when no folder is open *)
  workspaceFolders : option (list WorkspaceFolder);
  (** [process.env] *)
  process_env : gmap string string;
  (** [os.homedir()] *)
  os_homedir : string;
  (** [path.sep], [path.join], [path.basename] *)
  path_sep : ascii;
  path_join : list string -> string;
  path_basename : string -> string;
  (** the function exported by the package [is-path-inside] *)
  isPathInside : string -> string -> bool;
  (** [Number.isInteger(wsId - 1)]: the engine's conversion of a string to
      a floating-point number, decremented, is an integer *)
  isIntegerMinusOne : string -> bool
}.

(** [config.get(key)]. *)
Definition config_get (h : Host) (key : string) : JsValue :=
  default VUndefined (configuration h !! key).

(** [process.env[key]] as the replacement callback returns it, stringified. *)
Definition env_lookup (h : Host) (key : string) : string :=
  to_string_or_undefined (process_env h !! key).

(* ================================================================== *)
(** * src/history.settings.ts                                          *)
(* ================================================================== *)

Module HistorySettings.

Record IHistorySettings : Type := {
  folder : option Uri;
  daysLimit : JsValue;
  saveDelay : JsValue;
  maxDisplay : JsValue;
  dateLocale : JsValue;
  exclude : JsValue;
  enabled : bool;
  historyPath : JsValue;
  absolute : JsValue
}.

Definition default_exclude : JsValue :=
  VArr ["**/.history/**"; "**/.vscode/**"; "**/node_modules/**"; "**/typings/**"; "**/out/**"].

(** [pathIsInside(test, parent)], lines 214-218. *)
Definition pathIsInside (h : Host) (test parent : string) : bool :=
  isPathInside h test parent.

(** Lines 104-122: the consolidated warning about wrongly typed keys. *)
Definition type_warnings (enabled exclude : JsValue) : list Effect :=
  let message :=
    (if typeof_boolean enabled then "time-machine.enabled must be a number, " else "")
    +:+ (if typeof_string exclude then "time-machine.exclude must be an array, " else "") in
  if negb (String.eqb message "")
  then [WarningMessage ("Change setting: " +:+ slice_0_minus2 message)]
  else [].

(** Lines 126-131: expansion of the environment tokens, then of a leading
    tilde. *)
Definition expand_env_and_home (h : Host) (configured : string) : string :=
  replace_leading_tilde (replace_percent_tokens (env_lookup h) 0 configured) (os_homedir h).

(** Lines 147-149: the callback of [workspaceFolders.find]. *)
Definition folder_matches (h : Host) (wsId : string) (wsf : WorkspaceFolder) : bool :=
  if isIntegerMinusOne h wsId
  then match parseInt10 wsId with
       | Some z => (Z.of_nat (wf_index wsf) =? z)%Z
       | None => false
       end
  else String.eqb (wf_name wsf) wsId.

(** Lines 159-163: the token is replaced by the folder, or the path is
    given up ([None] is [null]). *)
Definition substitute_folder (historyPath : string) (m : RegExpMatch) (historyWS : option Uri)
  : option string :=
  match historyWS with
  | Some u => Some (replace_first historyPath (m_0 m) (fsPath u))
  | None => None
  end.

(** Lines 137-164: the workspace-folder token.  The result is the new
    [historyPath] ([None] is [null]) and [historyWS]. *)
Definition resolve_workspace_token (h : Host) (workspacefolder : option Uri) (historyPath : string)
  : list Effect * Completion (option string * option Uri) :=
  match match_workspace_token historyPath with
  | None => ([], Normal (Some historyPath, None))
  | Some m =>
      if 1 <? m_index m then
        ([ErrorMessage ("${workspaceFolder} must starts settings time-machine.path " +:+ historyPath)],
         Normal (substitute_folder historyPath m None, None))
      else
        match m_1 m with
        | Some (String c r) =>
            let wsId := String c r in
            match workspaceFolders h with
            | None => ([], TypeError)
            | Some folders =>
                match List.find (folder_matches h wsId) folders with
                | Some found =>
                    ([], Normal (substitute_folder historyPath m (Some (wf_uri found)),
                                 Some (wf_uri found)))
                | None =>
                    ([ErrorMessage ("workspaceFolder not found " +:+ historyPath)],
                     Normal (substitute_folder historyPath m None, None))
                end
            end
        | _ => ([], Normal (substitute_folder historyPath m workspacefolder, workspacefolder))
        end
  end.

(** Lines 175-177: the last argument of [path.join]. *)
Definition store_suffix (h : Host) (workspacefolder : Uri) (historyWS : option Uri) : string :=
  match historyWS with
  | Some hws =>
      if pathIsInside h (fsPath workspacefolder) (fsPath hws)
      then EmptyString
      else path_basename h (fsPath workspacefolder)
  | None => path_basename h (fsPath workspacefolder)
  end.

(** Lines 166-180: the layout below a resolved path; the pair is
    [(historyPath, absolute)]. *)
Definition layout (h : Host) (enabled : JsValue) (workspacefolder : option Uri)
    (historyPath : option string) (historyWS : option Uri) : JsValue * JsValue :=
  match historyPath with
  | Some (String c r) =>
      let resolved := String c r in
      let absolute := config_get h "absolute" in
      if truthy absolute || (is_undefined workspacefolder && strict_eq_num enabled 1)
      then (VStr (path_join h [resolved; ".history"]), VBool true)
      else match workspacefolder with
           | Some w =>
               (VStr (path_join h [resolved; ".history"; store_suffix h w historyWS]), absolute)
           | None => (VStr resolved, absolute)
           end
  | Some EmptyString => (VStr EmptyString, VUndefined)
  | None => (VNull, VUndefined)
  end.

(** Lines 124-189: [(historyPath, absolute)] before the separators are
    converted. *)
Definition locate (h : Host) (enabled : JsValue) (workspacefolder : option Uri)
  : list Effect * Completion (JsValue * JsValue) :=
  if negb (strict_eq_num enabled 0) then
    let historyPath := config_get h "path" in
    match historyPath with
    | VStr (String c r) =>
        match resolve_workspace_token h workspacefolder (expand_env_and_home h (String c r)) with
        | (effects, Normal (resolved, historyWS)) =>
            (effects, Normal (layout h enabled workspacefolder resolved historyWS))
        | (effects, TypeError) => (effects, TypeError)
        end
    | _ =>
        match workspacefolder with
        | Some w => ([], Normal (VStr (path_join h [fsPath w; ".history"]), VBool false))
        | None => ([], Normal (historyPath, VUndefined))
        end
    end
  else ([], Normal (VNull, VUndefined)).

(** Lines 191-193. *)
Definition to_host_separators (h : Host) (historyPath : JsValue) : JsValue :=
  match historyPath with
  | VStr (String c r) => VStr (replace_slashes (path_sep h) (String c r))
  | _ => historyPath
  end.

(** [read(workspacefolder, file, ws)], lines 94-212. *)
Definition read (h : Host) (workspacefolder : option Uri) (file : Uri)
    (ws : option WorkspaceFolder) : list Effect * Completion IHistorySettings :=
  let enabled := config_get h "enabled" in
  let exclude := config_get h "exclude" in
  let warnings := type_warnings enabled exclude in
  match locate h enabled workspacefolder with
  | (effects, TypeError) => (warnings ++ effects, TypeError)
  | (effects, Normal (located, absolute)) =>
      let historyPath := to_host_separators h located in
      (warnings ++ effects,
       Normal {|
         folder := workspacefolder;
         daysLimit := or_else (config_get h "daysLimit") (VNum 30);
         saveDelay := or_else (config_get h "saveDelay") (VNum 0);
         maxDisplay := or_else (config_get h "maxDisplay") (VNum 10);
         dateLocale := or_else (config_get h "dateLocale") VUndefined;
         exclude := or_else (config_get h "exclude") default_exclude;
         enabled := not_nullish_nor_empty historyPath;
         historyPath := historyPath;
         absolute := absolute
       |})
  end.

(** A settings object on the heap: the object literal built by [read]
    together with its identity. *)
Record SettingsObject : Type := {
  identity : nat;
  value : IHistorySettings
}.

(** The instance, and what is observable of its work. *)
Record State : Type := {
  settings : list SettingsObject;   (* this.settings, oldest first *)
  allocated : nat;                  (* settings objects created so far *)
  configReads : nat;                (* calls of getConfiguration made by read *)
  shown : list Effect               (* messages shown so far *)
}.

(** [new HistorySettings()]. *)
Definition new : State :=
  {| settings := []; allocated := 0; configReads := 0; shown := [] |}.

(** Lines 65-71: the callback of [this.settings.find]. *)
Definition same_folder (folder : option Uri) (value : IHistorySettings) : bool :=
  match folder, HistorySettings.folder value with
  | Some f, Some g => String.eqb (fsPath g) (fsPath f)
  | None, None => true
  | _, _ => false
  end.

(** [get(file)], lines 45-77. *)
Definition get (h : Host) (st : State) (file : Uri) : Completion SettingsObject * State :=
  let wsFolder := getWorkspaceFolder h (fsPath file) in
  let folder := option_map wf_uri wsFolder in
  match List.find (fun o => same_folder folder (value o)) (settings st) with
  | Some cached => (Normal cached, st)
  | None =>
      match read h folder file wsFolder with
      | (effects, TypeError) =>
          (TypeError,
           {| settings := settings st;
              allocated := allocated st;
              configReads := S (configReads st);
              shown := shown st ++ effects |})
      | (effects, Normal computed) =>
          let created := {| identity := allocated st; value := computed |} in
          (Normal created,
           {| settings := settings st ++ [created];
              allocated := S (allocated st);
              configReads := S (configReads st);
              shown := shown st ++ effects |})
      end
  end.

(** [clear()], lines 79-81. *)
Definition clear (st : State) : State :=
  {| settings := [];
     allocated := allocated st;
     configReads := configReads st;
     shown := shown st |}.

(** A series of calls of [get], each under the host of its moment. *)
Definition gets (st : State) (calls : list (Host * Uri)) : State :=
  fold_left (fun s call => snd (get (fst call) s (snd call))) calls st.

(** A value of string type, or an absent one. *)
Definition string_or_absent (v : JsValue) : Prop :=
  match v with
  | VStr _ | VNull | VUndefined => True
  | _ => False
  end.

(** What mode Never produces: no path, history disabled. *)
Definition never_record (r : IHistorySettings) : Prop :=
  historyPath r = VNull /\ enabled r = false.

(** Identities are handed out in allocation order. *)
Definition well_formed (st : State) : Prop :=
  Forall (fun o => identity o < allocated st) (settings st).

(** The cache key of a file under a host: the path of its owning root. *)
Definition owner_key (h : Host) (file : Uri) : option string :=
  option_map (fun w => fsPath (wf_uri w)) (getWorkspaceFolder h (fsPath file)).

(** [static getTreeLocation()], lines 36-39: the key [treeLocation] as it
    is stored; the cast to the enumeration does not convert it. *)
Definition getTreeLocation (h : Host) : JsValue := config_get h "treeLocation".

(** The key under which a cached object is found again: the path of its
    [folder], if it has one (lines 65-71). *)
Definition cache_key (o : SettingsObject) : option string :=
  option_map fsPath (folder (value o)).

Definition is_warning (e : Effect) : bool :=
  match e with WarningMessage _ => true | ErrorMessage _ => false end.

Definition is_error (e : Effect) : bool :=
  match e with ErrorMessage _ => true | WarningMessage _ => false end.

(** The tests of lines 104 and 107: some key has the wrong type. *)
Definition wrongly_typed (h : Host) : bool :=
  typeof_boolean (config_get h "enabled") || typeof_string (config_get h "exclude").

(** The key [path] holds a non-empty string (line 126). *)
Definition path_configured (h : Host) : bool :=
  match config_get h "path" with
  | VStr (String _ _) => true
  | _ => false
  end.

End HistorySettings.

(* ================================================================== *)
(** * The revision file-name codec of the history controller           *)
(* ================================================================== *)

Module HistoryController.

(** Modelled from the spec: the in-memory date of a revision, second
    granularity.  [src/history.controller.ts] is not among the sources
    (only its tests are); the fields are those handed to the date
    constructor, the month 0-based. *)
Record Timestamp : Type := {
  year : Z;
  month : Z;
  day : Z;
  hours : Z;
  minutes : Z;
  seconds : Z
}.

(** Modelled from the spec: the record returned by [decode] (section 4.3):
    stem, extension and timestamp, the timestamp absent for a file that is
    not a revision.  The controller's [decodeFile] is missing. *)
Record Decoded : Type := {
  stem : string;
  ext : string;
  timestamp : option Timestamp
}.

(** Modelled from the spec: one decimal digit of the 14-digit block (the
    controller's encoder is missing). *)
Definition digit_char (n : Z) : ascii := ascii_of_nat (48 + Z.to_nat (n mod 10)).

(** Modelled from the spec: a field on two digits (encoder missing). *)
Definition pad2 (n : Z) : string :=
  String (digit_char (n / 10)) (String (digit_char n) EmptyString).

(** Modelled from the spec: the year on four digits (encoder missing). *)
Definition pad4 (n : Z) : string :=
  String (digit_char (n / 1000)) (String (digit_char (n / 100)) (pad2 n)).

(** Modelled from the spec: the block YYYYMMDDhhmmss, the month 1-based on
    disk (encoder missing). *)
Definition timestamp_digits (t : Timestamp) : string :=
  pad4 (year t) +:+ pad2 (month t + 1) +:+ pad2 (day t)
  +:+ pad2 (hours t) +:+ pad2 (minutes t) +:+ pad2 (seconds t).

(** Modelled from the spec: [encode(sourceName, ext, timestamp)], the
    convention stem, underscore, 14 digits, extension of section 4.3; the
    controller's encoder is missing. *)
Definition encode (sourceName ext : string) (t : Timestamp) : string :=
  sourceName +:+ "_" +:+ timestamp_digits t +:+ ext.

(** Modelled from the spec: a run of ASCII digits, as the file-naming
    contract of section 6 has it (the controller is missing). *)
Fixpoint all_digits (s : string) : bool :=
  match s with
  | EmptyString => true
  | String c r => is_digit c && all_digits r
  end.

(** Modelled from the spec: fourteen digits at the head of [s], and what
    follows them (the controller's matching rule is missing). *)
Definition digits14_at (s : string) : option (string * string) :=
  let d := take 14 s in
  if (String.length d =? 14) && all_digits d then Some (d, drop 14 s) else None.

(** Modelled from the spec: the split of a file name at the last underscore
    immediately followed by 14 digits: what precedes the underscore, the
    digits, what follows them (the controller's matching rule is missing). *)
Fixpoint split_timestamp (s : string) : option (string * string * string) :=
  match s with
  | EmptyString => None
  | String c r =>
      match split_timestamp r with
      | Some (before, digits, rest) => Some (String c before, digits, rest)
      | None =>
          if is_char c 95 then
            match digits14_at r with
            | Some (digits, rest) => Some (EmptyString, digits, rest)
            | None => None
            end
          else None
      end
  end.

(** Modelled from the spec: an extension includes its leading dot or is
    empty (section 4.3; the controller is missing). *)
Definition is_extension (e : string) : bool :=
  match e with
  | EmptyString => true
  | String c _ => is_char c 46
  end.

(** Modelled from the spec: the number written by a run of digits (the
    controller's parser is missing). *)
Definition number (s : string) : Z := digits_value 0 s.

(** Modelled from the spec: the 14 digits read positionally as YYYY MM DD
    hh mm ss, the month made 0-based (the controller's parser is
    missing). *)
Definition parse_timestamp (d : string) : Timestamp :=
  {| year := number (take 4 d);
     month := number (take 2 (drop 4 d)) - 1;
     day := number (take 2 (drop 6 d));
     hours := number (take 2 (drop 8 d));
     minutes := number (take 2 (drop 10 d));
     seconds := number (take 2 (drop 12 d)) |}.

(** Modelled from the spec: the file name of a path, its last component
    (the controller is missing). *)
Definition file_name (path : string) : string :=
  List.last (PosixPath.segments path) EmptyString.

(** Modelled from the spec: the position of the last dot of a file name
    (the controller is missing). *)
Fixpoint last_dot (s : string) : option nat :=
  match s with
  | EmptyString => None
  | String c r =>
      match last_dot r with
      | Some i => Some (S i)
      | None => if is_char c 46 then Some 0 else None
      end
  end.

(** Modelled from the spec: name and extension of a plain file name, the
    extension starting at the last dot unless that dot leads the name (the
    controller is missing). *)
Definition split_extension (f : string) : string * string :=
  match last_dot f with
  | Some (S i) => (take (S i) f, drop (S i) f)
  | _ => (f, EmptyString)
  end.

(** Modelled from the spec: the outcome without a usable timestamp block:
    a failure ([None], the null of the spec) for what looks like a history
    entry, a record without timestamp otherwise (the controller's
    [decodeFile] is missing). *)
Definition without_timestamp (looksLikeHistoryEntry : bool) (f : string) : option Decoded :=
  if looksLikeHistoryEntry then None
  else Some {| stem := fst (split_extension f);
               ext := snd (split_extension f);
               timestamp := None |}.

(** Modelled from the spec: [decode(path)] of section 4.3.  The controller's
    [decodeFile] is missing; how a path is recognised as lying inside the
    store is left to the parameter [looksLikeHistoryEntry]. *)
Definition decode (looksLikeHistoryEntry : string -> bool) (path : string) : option Decoded :=
  let f := file_name path in
  match split_timestamp f with
  | Some (before, digits, rest) =>
      if is_extension rest
      then Some {| stem := before; ext := rest; timestamp := Some (parse_timestamp digits) |}
      else without_timestamp (looksLikeHistoryEntry path) f
  | None => without_timestamp (looksLikeHistoryEntry path) f
  end.

(** Modelled from the spec: a part of a single file name holds no path
    separator (the controller is missing). *)
Fixpoint no_slash (s : string) : bool :=
  match s with
  | EmptyString => true
  | String c r => negb (is_char c 47) && no_slash r
  end.

(** Modelled from the spec: a valid timestamp, the fields of a calendar
    date and time of day with a four-digit year (the spec leaves validity
    implicit). *)
Definition valid_timestamp (t : Timestamp) : Prop :=
  (0 <= year t <= 9999 /\ 0 <= month t <= 11 /\ 1 <= day t <= 31
   /\ 0 <= hours t <= 23 /\ 0 <= minutes t <= 59 /\ 0 <= seconds t <= 59)%Z.

(** Modelled from the spec: a valid triple: stem and extension are parts
    of one file name, the extension is empty or starts with its dot and
    does not itself hold an underscore followed by 14 digits. *)
Definition valid_triple (sourceName ext : string) (t : Timestamp) : Prop :=
  no_slash sourceName = true /\ no_slash ext = true
  /\ is_extension ext = true /\ split_timestamp ext = None
  /\ valid_timestamp t.

(** Modelled from the spec: a file name carries a well-formed timestamp
    block when it reads stem, underscore, 14 digits, extension. *)
Definition has_timestamp_block (f : string) : Prop :=
  exists before digits rest,
    f = before +:+ "_" +:+ digits +:+ rest
    /\ String.length digits = 14 /\ all_digits digits = true
    /\ is_extension rest = true.

(** Modelled from the spec: a path looks like a history entry when one of
    its directories is named [.history] (on-disk layout, section 6). *)
Definition in_history_directory (path : string) : bool :=
  existsb (String.eqb ".history") (removelast (PosixPath.segments path)).

End HistoryController.

(* ================================================================== *)
(** * A POSIX host for the examples                                    *)
(* ================================================================== *)

Module PosixHost.

(** [child] lies strictly below [parent]; both absolute and normalised. *)
Definition inside (child parent : string) : bool :=
  starts_with (parent +:+ "/") child
  && (String.length parent + 1 <? String.length child).

(** Decides [Number.isInteger(wsId - 1)] for the qualifiers of the
    examples: true on a run of decimal digits, false on a name that is no
    numeric literal.  Signs, fractions, exponents and radix prefixes need
    the engine's floating-point conversion and are outside this instance. *)
Definition decimal_index (s : string) : bool :=
  match s with
  | EmptyString => false
  | _ => HistoryController.all_digits s
  end.

Definition folder_of (folders : list WorkspaceFolder) (p : string) : option WorkspaceFolder :=
  List.find (fun f => String.eqb (fsPath (wf_uri f)) p || inside p (fsPath (wf_uri f))) folders.

Definition host (config : gmap string JsValue) (env : gmap string string)
    (folders : list WorkspaceFolder) : Host :=
  {| configuration := config;
     getWorkspaceFolder := folder_of folders;
     workspaceFolders := Some folders;
     process_env := env;
     os_homedir := "/home/user";
     path_sep := PosixPath.sep;
     path_join := PosixPath.join;
     path_basename := PosixPath.basename;
     isPathInside := inside;
     isIntegerMinusOne := decimal_index |}.

Definition folder (p n : string) (i : nat) : WorkspaceFolder :=
  {| wf_uri := {| fsPath := p |}; wf_name := n; wf_index := i |}.

End PosixHost.

(* ================================================================== *)
(** * Properties                                                       *)
(* ================================================================== *)

Import HistorySettings.

(** ** The string primitives on sample inputs *)

Example replace_percent_ex :
  replace_percent_tokens (fun k => "<" +:+ k +:+ ">") 0 "a%X%b%%c%YZ%%" = "a<X>b%<c>YZ%%".
Proof. reflexivity. Qed.

Example match_ex1 :
  match_workspace_token "${workspaceFolder: 1}/x}y"
  = Some {| m_index := 0; m_0 := "${workspaceFolder: 1}/x}"; m_1 := Some "1}/x" |}.
Proof. reflexivity. Qed.

Example match_ex2 :
  match_workspace_token "/p/${WORKSPACEfolder}/h"
  = Some {| m_index := 3; m_0 := "${WORKSPACEfolder}"; m_1 := None |}.
Proof. reflexivity. Qed.

Example match_ex3 :
  match_workspace_token "${workspaceFolder : history }/h"
  = Some {| m_index := 0; m_0 := "${workspaceFolder : history }"; m_1 := Some "history " |}.
Proof. reflexivity. Qed.

Example subst_ex : replace_first "a-b-c" "-" "[$&$$$`]" = "a[-$a]b-c".
Proof. reflexivity. Qed.

Example parse_ex : parseInt10 " 12px" = Some 12%Z /\ parseInt10 "x" = None.
Proof. split; reflexivity. Qed.
Example posix_join_ex :
  PosixPath.join ["/custom//path/"; ".history"; "workspace"] = "/custom/path/.history/workspace"
  /\ PosixPath.join ["a/../../b"; ".history"; ""] = "../b/.history"
  /\ PosixPath.join ["/.."; ""] = "/"
  /\ PosixPath.basename "/current-workspace//" = "current-workspace".
Proof. repeat split; reflexivity. Qed.

(** ** Hosts used by the closed statements below *)

(** The test suite's default configuration, [path] left empty. *)
Example read_default_configuration :
  let workspace := PosixHost.folder "/workspace" "test-workspace" 0 in
  let h := PosixHost.host
             {[ "enabled" := VNum 1; "path" := VStr ""; "absolute" := VBool false;
                "daysLimit" := VNum 30 ]} ∅ [workspace] in
  exists r, read h (Some (wf_uri workspace)) {| fsPath := "/workspace/test/file.ts" |} (Some workspace)
            = ([], Normal r)
            /\ historyPath r = VStr "/workspace/.history"
            /\ enabled r = true /\ absolute r = VBool false.
Proof. eexists. split; [vm_compute; reflexivity|]. repeat split. Qed.

(** The test "relative path with workspaceFolder". *)
Example read_relative_custom_path :
  let workspace := PosixHost.folder "/workspace" "test-workspace" 0 in
  let h := PosixHost.host
             {[ "enabled" := VNum 1; "path" := VStr "/custom/path"; "absolute" := VBool false ]}
             ∅ [workspace] in
  exists r, read h (Some (wf_uri workspace)) {| fsPath := "/workspace/test.ts" |} (Some workspace)
            = ([], Normal r)
            /\ historyPath r = VStr "/custom/path/.history/workspace"
            /\ absolute r = VBool false.
Proof. eexists. split; [vm_compute; reflexivity|]. repeat split. Qed.

(** ** Facts about [read] *)

Lemma read_completion (h : Host) (wf : option Uri) (file : Uri) (ws : option WorkspaceFolder) :
  forall effects r,
    read h wf file ws = (effects, Normal r) ->
    exists located abs effects',
      locate h (config_get h "enabled") wf = (effects', Normal (located, abs))
      /\ historyPath r = to_host_separators h located
      /\ absolute r = abs
      /\ enabled r = not_nullish_nor_empty (to_host_separators h located)
      /\ folder r = wf
      /\ daysLimit r = or_else (config_get h "daysLimit") (VNum 30).
Proof.
  intros effects r. unfold read.
  destruct (locate h (config_get h "enabled") wf) as [effects' [[located abs]|]] eqn:E.
  - intros H. inversion H; subst; clear H. exists located, abs, effects'.
    repeat split; reflexivity.
  - discriminate.
Qed.

Lemma read_never (h : Host) (wf : option Uri) (file : Uri) (ws : option WorkspaceFolder) :
  config_get h "enabled" = VNum 0 ->
  exists effects r,
    read h wf file ws = (effects, Normal r)
    /\ historyPath r = VNull /\ enabled r = false /\ absolute r = VUndefined.
Proof.
  intros H. unfold read, locate. rewrite H. simpl.
  eexists _, _. split; [reflexivity|]. repeat split.
Qed.

Lemma to_host_separators_enabled (h : Host) (v : JsValue) :
  not_nullish_nor_empty (to_host_separators h v) = not_nullish_nor_empty v.
Proof. destruct v as [| | | |[|c r]|]; reflexivity. Qed.

Lemma nonempty_string_enabled (s : string) :
  s <> EmptyString -> not_nullish_nor_empty (VStr s) = true.
Proof. destruct s; [congruence | reflexivity]. Qed.

(** Whenever [layout] assigns [absolute], the path it returns is usable. *)
Lemma layout_disabled_absolute (h : Host) (en : JsValue) (wf : option Uri)
    (resolved : option string) (hws : option Uri) :
  (forall l, path_join h l <> EmptyString) ->
  not_nullish_nor_empty (fst (layout h en wf resolved hws)) = false ->
  snd (layout h en wf resolved hws) = VUndefined.
Proof.
  intros J. unfold layout.
  destruct resolved as [[|c r]|]; try reflexivity.
  destruct (truthy (config_get h "absolute") || _); cbn [fst snd].
  - rewrite nonempty_string_enabled by apply J. discriminate.
  - destruct wf; cbn [fst snd]; rewrite nonempty_string_enabled;
      solve [discriminate | apply J].
Qed.

Lemma locate_disabled_absolute (h : Host) (en : JsValue) (wf : option Uri) :
  (forall l, path_join h l <> EmptyString) ->
  forall effects located abs,
    locate h en wf = (effects, Normal (located, abs)) ->
    not_nullish_nor_empty located = false ->
    abs = VUndefined.
Proof.
  intros J effects located abs. unfold locate.
  destruct (strict_eq_num en 0); simpl.
  - intros H _. now inversion H.
  - destruct (config_get h "path") as [| | | |[|c r]|] eqn:P;
      try (destruct wf; intros H D; inversion H; subst; clear H;
           [rewrite nonempty_string_enabled in D by apply J; discriminate | reflexivity]).
    destruct (resolve_workspace_token h wf _) as [eff [[resolved hws]|]]; [|discriminate].
    pose proof (layout_disabled_absolute h en wf resolved hws J) as L.
    destruct (layout h en wf resolved hws) as [l a].
    intros H D. inversion H; subst; clear H. exact (L D).
Qed.

Lemma posix_join_nonempty (l : list string) : PosixPath.join l <> EmptyString.
Proof.
  unfold PosixPath.join.
  destruct (List.filter _ l) as [|a parts]; [discriminate|].
  unfold PosixPath.normalize.
  destruct (PosixPath.join_with_slash (a :: parts)); [discriminate|].
  destruct (PosixPath.normalizeString _ _).
  - destruct (PosixPath.is_absolute _); [discriminate|].
    destruct (PosixPath.ends_with_slash _); discriminate.
  - destruct (PosixPath.is_absolute _); discriminate.
Qed.

(** C10.  When resolution ends with history disabled, whatever the reason
    (mode Never, an unusable template, an empty path without owning root),
    the [absolute] field of the record is [undefined]; hence a record whose
    [absolute] is a boolean is an enabled one.  The host's [path.join] never
    returns the empty string. *)
Theorem C10_disabled_leaves_absolute_undefined :
  forall (h : Host) (workspacefolder : option Uri) (file : Uri)
         (ws : option WorkspaceFolder) (effects : list Effect) (r : IHistorySettings),
    (forall l, path_join h l <> EmptyString) ->
    read h workspacefolder file ws = (effects, Normal r) ->
    (enabled r = false -> absolute r = VUndefined)
    /\ (forall b, absolute r = VBool b -> enabled r = true).
Proof.
  intros h wf file ws effects r J R.
  destruct (read_completion h wf file ws effects r R)
    as (located & abs & effects' & L & HP & A & EN & _).
  assert (D : enabled r = false -> absolute r = VUndefined).
  { intros E. rewrite A. rewrite EN, to_host_separators_enabled in E.
    exact (locate_disabled_absolute h _ wf J _ _ _ L E). }
  split; [exact D|].
  intros b B. destruct (enabled r); [reflexivity|].
  rewrite (D eq_refl) in B. discriminate.
Qed.

Lemma C10_disabled_leaves_absolute_undefined_witness :
  let h := PosixHost.host {[ "enabled" := VNum 1; "path" := VStr "" ]} ∅ [] in
  let r := {| folder := None; daysLimit := VNum 30; saveDelay := VNum 0;
              maxDisplay := VNum 10; dateLocale := VUndefined;
              exclude := default_exclude; enabled := false;
              historyPath := VStr ""; absolute := VUndefined |} in
  read h None {| fsPath := "/outside/file.ts" |} None = ([], Normal r)
  /\ (enabled r = false -> absolute r = VUndefined)
  /\ (forall b, absolute r = VBool b -> enabled r = true).
Proof.
  intros h r.
  assert (R : read h None {| fsPath := "/outside/file.ts" |} None = ([], Normal r))
    by (vm_compute; reflexivity).
  split; [exact R|].
  exact (C10_disabled_leaves_absolute_undefined h None _ None [] r posix_join_nonempty R).
Defined.

(** ** The cache of [get] *)

Lemma get_hit (h : Host) (st : State) (file : Uri) (o : SettingsObject) :
  List.find (fun o => same_folder (option_map wf_uri (getWorkspaceFolder h (fsPath file))) (value o))
            (settings st) = Some o ->
  get h st file = (Normal o, st).
Proof. intros F. unfold get. rewrite F. reflexivity. Qed.

Lemma get_settings_grow (h : Host) (st : State) (file : Uri) :
  settings (snd (get h st file)) = settings st
  \/ exists o, settings (snd (get h st file)) = settings st ++ [o]
               /\ fst (get h st file) = Normal o
               /\ identity o = allocated st
               /\ allocated (snd (get h st file)) = S (allocated st).
Proof.
  unfold get.
  destruct (List.find _ (settings st)); [left; reflexivity|].
  destruct (read h _ file _) as [effects [computed|]].
  - right. eexists. repeat split.
  - left. reflexivity.
Qed.

Lemma get_allocated_mono (h : Host) (st : State) (file : Uri) :
  allocated st <= allocated (snd (get h st file)).
Proof.
  unfold get.
  destruct (List.find _ (settings st)); [simpl; lia|].
  destruct (read h _ file _) as [effects [computed|]]; simpl; lia.
Qed.

(** A record kept in the cache, or computed by [read] on a miss. *)
Lemma get_returns (h : Host) (st : State) (file : Uri) (o : SettingsObject) (st' : State) :
  get h st file = (Normal o, st') ->
  (In o (settings st) /\ st' = st)
  \/ (exists effects,
        read h (option_map wf_uri (getWorkspaceFolder h (fsPath file))) file
             (getWorkspaceFolder h (fsPath file)) = (effects, Normal (value o))
        /\ identity o = allocated st
        /\ settings st' = settings st ++ [o]
        /\ allocated st' = S (allocated st)
        /\ configReads st' = S (configReads st)).
Proof.
  unfold get.
  destruct (List.find _ (settings st)) as [cached|] eqn:F.
  - intros H. inversion H; subst. left. split; [|reflexivity].
    apply find_some in F. tauto.
  - destruct (read h _ file _) as [effects [computed|]]; [|discriminate].
    intros H. inversion H; subst; clear H. right. exists effects. repeat split.
Qed.

(** What holds of every cached record and of every record [read] computes
    under the hosts at hand holds of the cache after [get]. *)
Lemma get_preserves (P : IHistorySettings -> Prop) (h : Host) (st : State) (file : Uri) :
  (forall wf f ws effects r, read h wf f ws = (effects, Normal r) -> P r) ->
  Forall (fun o => P (value o)) (settings st) ->
  Forall (fun o => P (value o)) (settings (snd (get h st file))).
Proof.
  intros R I. unfold get.
  destruct (List.find _ (settings st)); [exact I|].
  destruct (read h _ file _) as [effects [computed|]] eqn:E; simpl; [|exact I].
  apply Forall_app. split; [exact I|].
  constructor; [|constructor]. simpl. eapply R, E.
Qed.

Lemma read_never_record (h : Host) :
  config_get h "enabled" = VNum 0 ->
  forall wf f ws effects r, read h wf f ws = (effects, Normal r) -> never_record r.
Proof.
  intros N wf f ws effects r R.
  destruct (read_never h wf f ws N) as (effects' & r' & R' & HP & EN & _).
  rewrite R in R'. inversion R'; subst. split; assumption.
Qed.

Lemma gets_never (calls : list (Host * Uri)) :
  Forall (fun call => config_get (fst call) "enabled" = VNum 0) calls ->
  forall st,
    Forall (fun o => never_record (value o)) (settings st) ->
    Forall (fun o => never_record (value o)) (settings (gets st calls)).
Proof.
  unfold gets. induction 1 as [|[h f] calls N _ IH]; intros st I; simpl; [exact I|].
  apply IH. apply get_preserves; [|exact I]. apply read_never_record, N.
Qed.

(** C7.  Under mode Never (the key [enabled] is 0) every record returned
    by [get] has [historyPath] absent and [enabled] false, whatever the
    file and the other keys: on the computation that follows [clear()] and
    on every later call served by the cache, as long as the mode has been
    Never since that [clear()]. *)
Theorem C7_never_mode_disables_history :
  forall (st : State) (calls : list (Host * Uri)) (h : Host) (file : Uri),
    Forall (fun call => config_get (fst call) "enabled" = VNum 0) calls ->
    config_get h "enabled" = VNum 0 ->
    exists o st',
      get h (gets (clear st) calls) file = (Normal o, st')
      /\ historyPath (value o) = VNull
      /\ enabled (value o) = false.
Proof.
  intros st calls h file NS N.
  assert (I : Forall (fun o => never_record (value o)) (settings (gets (clear st) calls))).
  { apply gets_never; [exact NS | constructor]. }
  remember (gets (clear st) calls) as st1.
  unfold get.
  destruct (List.find _ (settings st1)) as [cached|] eqn:F.
  - exists cached, st1. split; [reflexivity|].
    apply find_some in F. destruct F as [F _].
    exact (proj1 (List.Forall_forall _ _) I _ F).
  - destruct (read_never h (option_map wf_uri (getWorkspaceFolder h (fsPath file))) file
                (getWorkspaceFolder h (fsPath file)) N) as (effects & r & R & HP & EN & _).
    rewrite R. eexists _, _. split; [reflexivity|]. split; assumption.
Qed.

Lemma C7_never_mode_disables_history_witness :
  let h := PosixHost.host
             {[ "enabled" := VNum 0; "path" := VStr "/custom/path"; "absolute" := VBool true ]}
             ∅ [PosixHost.folder "/workspace" "test-workspace" 0] in
  exists o st',
    get h (gets (clear new) [(h, {| fsPath := "/outside/a.ts" |})])
        {| fsPath := "/workspace/test.ts" |} = (Normal o, st')
    /\ historyPath (value o) = VNull
    /\ enabled (value o) = false.
Proof.
  intros h.
  apply (C7_never_mode_disables_history new [(h, {| fsPath := "/outside/a.ts" |})] h).
  - constructor; [reflexivity | constructor].
  - reflexivity.
Defined.

Lemma find_app_some {A : Type} (p : A -> bool) (l l' : list A) (x : A) :
  List.find p l = Some x -> List.find p (l ++ l') = Some x.
Proof.
  induction l as [|a l IH]; simpl; [discriminate|].
  destruct (p a); [trivial | exact IH].
Qed.

Lemma find_app_none {A : Type} (p : A -> bool) (l l' : list A) :
  List.find p l = None -> List.find p (l ++ l') = List.find p l'.
Proof.
  induction l as [|a l IH]; simpl; [reflexivity|].
  destruct (p a); [discriminate | exact IH].
Qed.

Lemma find_pointwise {A : Type} (p q : A -> bool) (l : list A) :
  (forall x, p x = q x) -> List.find p l = List.find q l.
Proof.
  intros E. induction l as [|a l IH]; simpl; [reflexivity|].
  rewrite E, IH. reflexivity.
Qed.

Lemma same_folder_key (f g : option Uri) (v : IHistorySettings) :
  option_map fsPath f = option_map fsPath g -> same_folder f v = same_folder g v.
Proof.
  unfold same_folder. destruct f as [f|], g as [g|]; simpl; try discriminate; [|reflexivity].
  intros E. injection E as E. rewrite E. reflexivity.
Qed.

Lemma same_folder_refl (f : option Uri) (v : IHistorySettings) :
  folder v = f -> same_folder f v = true.
Proof.
  intros E. unfold same_folder. rewrite E. destruct f; [apply String.eqb_refl | reflexivity].
Qed.

Lemma read_folder (h : Host) (wf : option Uri) (file : Uri) (ws : option WorkspaceFolder)
    (effects : list Effect) (r : IHistorySettings) :
  read h wf file ws = (effects, Normal r) -> folder r = wf.
Proof.
  intros R. destruct (read_completion h wf file ws effects r R)
    as (? & ? & ? & _ & _ & _ & _ & F & _). exact F.
Qed.

(** Later calls never displace the entry a key is served from. *)
Lemma get_keeps_find (p : SettingsObject -> bool) (h : Host) (st : State) (file : Uri)
    (o : SettingsObject) :
  List.find p (settings st) = Some o ->
  List.find p (settings (snd (get h st file))) = Some o.
Proof.
  intros F. destruct (get_settings_grow h st file) as [E|(o' & E & _)]; rewrite E.
  - exact F.
  - apply find_app_some, F.
Qed.

Lemma gets_keeps_find (p : SettingsObject -> bool) (calls : list (Host * Uri)) :
  forall (st : State) (o : SettingsObject),
    List.find p (settings st) = Some o ->
    List.find p (settings (gets st calls)) = Some o.
Proof.
  unfold gets. induction calls as [|[h f] calls IH]; intros st o F; simpl; [exact F|].
  apply IH, get_keeps_find, F.
Qed.

Lemma gets_allocated_mono (calls : list (Host * Uri)) :
  forall st, allocated st <= allocated (gets st calls).
Proof.
  unfold gets. induction calls as [|[h f] calls IH]; intros st; simpl; [lia|].
  pose proof (get_allocated_mono h st f). pose proof (IH (snd (get h st f))). simpl in *. lia.
Qed.

(** After a call that returned [o], the key of that call is served by [o]. *)
Lemma get_then_find (h : Host) (st : State) (file : Uri) (o : SettingsObject) (st' : State) :
  get h st file = (Normal o, st') ->
  List.find (fun o => same_folder (option_map wf_uri (getWorkspaceFolder h (fsPath file))) (value o))
            (settings st') = Some o.
Proof.
  unfold get.
  destruct (List.find _ (settings st)) as [cached|] eqn:F.
  - intros H. inversion H; subst. exact F.
  - destruct (read h _ file _) as [effects [computed|]] eqn:R; [|discriminate].
    intros H. inversion H; subst; clear H. simpl.
    rewrite (find_app_none _ _ _ F). simpl.
    rewrite (same_folder_refl _ computed (read_folder _ _ _ _ _ _ R)). reflexivity.
Qed.

Lemma get_identity_bound (h : Host) (st : State) (file : Uri) (o : SettingsObject) (st' : State) :
  well_formed st ->
  get h st file = (Normal o, st') ->
  identity o < allocated st'.
Proof.
  intros W G. destruct (get_returns h st file o st' G) as [[I E]|(effects & _ & I & _ & A & _)].
  - subst. exact (proj1 (List.Forall_forall _ _) W _ I).
  - lia.
Qed.

Lemma owner_key_folder (h1 h2 : Host) (file1 file2 : Uri) :
  owner_key h2 file2 = owner_key h1 file1 ->
  option_map fsPath (option_map wf_uri (getWorkspaceFolder h2 (fsPath file2)))
  = option_map fsPath (option_map wf_uri (getWorkspaceFolder h1 (fsPath file1))).
Proof.
  unfold owner_key.
  destruct (getWorkspaceFolder h2 _), (getWorkspaceFolder h1 _); simpl; trivial.
Qed.

(** C8.  Once [get] has returned an object for a file, every later [get]
    for a file with the same owning root (or, like it, without one) returns
    that very object: nothing is read, shown or allocated, whatever calls
    of [get] came in between.  After [clear()] the next [get] computes the
    settings anew with [read] and returns a newly created object. *)
Theorem C8_settings_are_cached_until_cleared :
  forall (st : State) (h1 h2 : Host) (file1 file2 : Uri) (calls : list (Host * Uri))
         (o1 : SettingsObject) (st1 : State),
    well_formed st ->
    get h1 st file1 = (Normal o1, st1) ->
    owner_key h2 file2 = owner_key h1 file1 ->
    get h2 (gets st1 calls) file2 = (Normal o1, gets st1 calls)
    /\ forall (h : Host) (file : Uri),
        match read h (option_map wf_uri (getWorkspaceFolder h (fsPath file))) file
                   (getWorkspaceFolder h (fsPath file)) with
        | (effects, Normal computed) =>
            let fresh := {| identity := allocated (gets st1 calls); value := computed |} in
            exists st3,
              get h (clear (gets st1 calls)) file = (Normal fresh, st3)
              /\ settings st3 = [fresh]
              /\ configReads st3 = S (configReads (gets st1 calls))
              /\ identity fresh <> identity o1
        | (effects, TypeError) =>
            exists st3,
              get h (clear (gets st1 calls)) file = (TypeError, st3)
              /\ configReads st3 = S (configReads (gets st1 calls))
        end.
Proof.
  intros st h1 h2 file1 file2 calls o1 st1 W G K. split.
  - apply get_hit.
    rewrite (find_pointwise _
               (fun o => same_folder (option_map wf_uri (getWorkspaceFolder h1 (fsPath file1)))
                                     (value o))).
    + apply gets_keeps_find. exact (get_then_find h1 st file1 o1 st1 G).
    + intros x. apply same_folder_key, owner_key_folder, K.
  - intros h file. unfold get, clear. simpl.
    destruct (read h _ file _) as [effects [computed|]].
    + eexists. repeat split. simpl.
      pose proof (get_identity_bound h1 st file1 o1 st1 W G).
      pose proof (gets_allocated_mono calls st1). lia.
    + eexists. repeat split.
Qed.

Lemma C8_settings_are_cached_until_cleared_witness :
  let h := PosixHost.host {[ "enabled" := VNum 1; "path" := VStr "" ]} ∅
             [PosixHost.folder "/workspace" "test-workspace" 0] in
  let file1 := {| fsPath := "/workspace/test.ts" |} in
  let file2 := {| fsPath := "/workspace/src/other.ts" |} in
  let calls := [(h, {| fsPath := "/outside/file.ts" |})] in
  let o1 := fst (get h new file1) in
  let st1 := snd (get h new file1) in
  exists o, o1 = Normal o
    /\ get h (gets st1 calls) file2 = (Normal o, gets st1 calls).
Proof.
  intros h file1 file2 calls o1 st1.
  assert (W : well_formed new) by constructor.
  assert (G : get h new file1
              = (Normal {| identity := 0;
                           value := {| folder := Some {| fsPath := "/workspace" |};
                                       daysLimit := VNum 30; saveDelay := VNum 0;
                                       maxDisplay := VNum 10; dateLocale := VUndefined;
                                       exclude := default_exclude; enabled := true;
                                       historyPath := VStr "/workspace/.history";
                                       absolute := VBool false |} |}, st1))
    by (vm_compute; reflexivity).
  assert (K : owner_key h file2 = owner_key h file1) by reflexivity.
  eexists. split.
  - unfold o1. rewrite G. reflexivity.
  - exact (proj1 (C8_settings_are_cached_until_cleared new h h file1 file2 calls _ st1 W G K)).
Defined.

(** ** The store root below a resolved template *)

Lemma resolve_named_token (h : Host) (owner : option Uri) (expanded : string)
    (m : RegExpMatch) (wsId resolved : string) (target : Uri) (effects : list Effect) :
  match_workspace_token expanded = Some m ->
  m_1 m = Some wsId ->
  wsId <> EmptyString ->
  resolve_workspace_token h owner expanded = (effects, Normal (Some resolved, Some target)) ->
  exists folders found,
    workspaceFolders h = Some folders
    /\ List.find (folder_matches h wsId) folders = Some found
    /\ target = wf_uri found
    /\ resolved = replace_first expanded (m_0 m) (fsPath target)
    /\ m_index m <= 1.
Proof.
  intros M Q N. unfold resolve_workspace_token. rewrite M.
  destruct (1 <? m_index m) eqn:I; [discriminate|].
  apply Nat.ltb_ge in I.
  rewrite Q. destruct wsId as [|c r]; [congruence|].
  destruct (workspaceFolders h) as [folders|]; [|discriminate].
  destruct (List.find _ folders) as [found|] eqn:F; [|discriminate].
  intros H. inversion H; subst; clear H.
  exists folders, found. repeat split; assumption.
Qed.

(** C4.  The path template is not empty and its workspace-folder token
    carries a qualifier (a name or an index) that designates the root
    [target]; the template resolves to the non-empty path [resolved]; the
    flag [absolute] is off and the root [owner] owns the file.  Then the
    store root is [path.join(resolved, '.history', suffix)] in the host's
    separators, where [suffix] is empty when [owner] lies inside [target]
    and the base name of [owner] otherwise. *)
Theorem C4_relative_store_root_under_named_folder :
  forall (h : Host) (owner : Uri) (file : Uri) (ws : option WorkspaceFolder)
         (configured wsId resolved : string) (m : RegExpMatch) (target : Uri)
         (effects : list Effect),
    strict_eq_num (config_get h "enabled") 0 = false ->
    config_get h "path" = VStr configured ->
    configured <> EmptyString ->
    match_workspace_token (expand_env_and_home h configured) = Some m ->
    m_1 m = Some wsId ->
    wsId <> EmptyString ->
    resolve_workspace_token h (Some owner) (expand_env_and_home h configured)
      = (effects, Normal (Some resolved, Some target)) ->
    resolved <> EmptyString ->
    truthy (config_get h "absolute") = false ->
    let suffix :=
      if isPathInside h (fsPath owner) (fsPath target)
      then EmptyString
      else path_basename h (fsPath owner) in
    (exists folders found,
        workspaceFolders h = Some folders
        /\ List.find (folder_matches h wsId) folders = Some found
        /\ target = wf_uri found
        /\ resolved = replace_first (expand_env_and_home h configured) (m_0 m) (fsPath target))
    /\ exists r,
        read h (Some owner) file ws
        = (type_warnings (config_get h "enabled") (config_get h "exclude") ++ effects, Normal r)
        /\ historyPath r
           = VStr (replace_slashes (path_sep h) (path_join h [resolved; ".history"; suffix])).
Proof.
  intros h owner file ws configured wsId resolved m target effects
         EN P NE M Q QN R RN A suffix.
  split.
  { destruct (resolve_named_token h (Some owner) _ m wsId resolved target effects M Q QN R)
      as (folders & found & H1 & H2 & H3 & H4 & _).
    exists folders, found. repeat split; assumption. }
  unfold read, locate. rewrite EN, P. simpl negb. cbv iota.
  destruct configured as [|c0 r0]; [congruence|].
  rewrite R. unfold layout.
  destruct resolved as [|c1 r1]; [congruence|].
  rewrite A. simpl orb. cbv iota.
  eexists. split; [reflexivity|]. simpl.
  unfold to_host_separators, store_suffix, pathIsInside. fold suffix.
  destruct (path_join h _); reflexivity.
Qed.

Lemma C4_relative_store_root_under_named_folder_witness :
  let current := PosixHost.folder "/current-workspace" "current" 0 in
  let history := PosixHost.folder "/history-workspace" "history" 1 in
  let h := PosixHost.host
             {[ "enabled" := VNum 1;
                "path" := VStr "${workspaceFolder: history}/custom-path";
                "absolute" := VBool false ]}
             ∅ [current; history] in
  exists r,
    read h (Some (wf_uri current)) {| fsPath := "/current-workspace/test.ts" |} (Some current)
    = ([], Normal r)
    /\ historyPath r = VStr "/history-workspace/custom-path/.history/current-workspace".
Proof.
  intros current history h.
  destruct (C4_relative_store_root_under_named_folder
              h (wf_uri current) {| fsPath := "/current-workspace/test.ts" |} (Some current)
              "${workspaceFolder: history}/custom-path" "history"
              "/history-workspace/custom-path"
              {| m_index := 0; m_0 := "${workspaceFolder: history}"; m_1 := Some "history" |}
              (wf_uri history) [])
    as [_ (r & R & HP)];
    try (vm_compute; reflexivity); try discriminate.
  exists r. split; [exact R | exact HP].
Defined.

(** ** Environment tokens *)

Lemma until_percent_key (key rest : string) :
  has_char 37 key = false ->
  until_percent (key +:+ String "%" rest) = Some key.
Proof.
  induction key as [|c key IH]; simpl; [reflexivity|].
  intros H. apply orb_false_elim in H. destruct H as [C H].
  rewrite C, (IH H). reflexivity.
Qed.

Lemma replace_percent_skip (f : string -> string) (a b : string) :
  replace_percent_tokens f (String.length a) (a +:+ b) = replace_percent_tokens f 0 b.
Proof. induction a as [|c a IH]; simpl; [destruct b; reflexivity | exact IH]. Qed.

Lemma string_app_assoc (a b c : string) : (a +:+ b) +:+ c = a +:+ (b +:+ c).
Proof. induction a as [|x a IH]; simpl; [reflexivity | now rewrite IH]. Qed.

Lemma string_app_length (a b : string) :
  String.length (a +:+ b) = String.length a + String.length b.
Proof. induction a as [|x a IH]; simpl; [reflexivity | now rewrite IH]. Qed.

(** The first token of a string: what precedes it is kept, the token gives
    way to the callback's result, the scan goes on behind it. *)
Lemma replace_first_percent_token (f : string -> string) (pre key post : string) :
  has_char 37 pre = false ->
  has_char 37 key = false ->
  key <> EmptyString ->
  replace_percent_tokens f 0 (pre +:+ String "%" (key +:+ String "%" post))
  = pre +:+ f key +:+ replace_percent_tokens f 0 post.
Proof.
  intros P K N. induction pre as [|c pre IH].
  - simpl. rewrite (until_percent_key key post K).
    destruct key as [|k ks]; [congruence|].
    f_equal.
    change (String k ks +:+ String "%" post)
      with (String k (ks +:+ String "%" post)).
    change (replace_percent_tokens f (S (String.length (String k ks)))
              (String k (ks +:+ String "%" post)))
      with (replace_percent_tokens f (String.length (String k ks))
              (ks +:+ String "%" post)).
    replace (ks +:+ String "%" post) with ((ks +:+ "%") +:+ post)
      by (rewrite string_app_assoc; reflexivity).
    replace (String.length (String k ks)) with (String.length (ks +:+ "%"))
      by (rewrite string_app_length; simpl; lia).
    apply replace_percent_skip.
  - simpl in P. apply orb_false_elim in P. destruct P as [C P].
    simpl. rewrite C. rewrite (IH P). reflexivity.
Qed.

(** The part of the rule on environment tokens that holds: a token naming
    a variable of the environment is replaced by the variable's value. *)
Lemma expand_defined_variable (h : Host) (pre key post value : string) :
  has_char 37 pre = false ->
  has_char 37 key = false ->
  key <> EmptyString ->
  process_env h !! key = Some value ->
  replace_percent_tokens (env_lookup h) 0 (pre +:+ String "%" (key +:+ String "%" post))
  = pre +:+ value +:+ replace_percent_tokens (env_lookup h) 0 post.
Proof.
  intros P K N E. rewrite (replace_first_percent_token _ pre key post P K N).
  unfold env_lookup. rewrite E. reflexivity.
Qed.

(** The same token when the variable is not set. *)
Lemma expand_unset_variable (h : Host) (pre key post : string) :
  has_char 37 pre = false ->
  has_char 37 key = false ->
  key <> EmptyString ->
  process_env h !! key = None ->
  replace_percent_tokens (env_lookup h) 0 (pre +:+ String "%" (key +:+ String "%" post))
  = pre +:+ "undefined" +:+ replace_percent_tokens (env_lookup h) 0 post.
Proof.
  intros P K N E. rewrite (replace_first_percent_token _ pre key post P K N).
  unfold env_lookup. rewrite E. reflexivity.
Qed.

(** C1.  The token of a variable that is not set is not replaced by the
    empty string: the callback returns [undefined], which [replace] turns
    into the nine letters of that word.  The token of a set variable is
    replaced by its value. *)
Theorem C1_unset_variable_is_spelled_undefined :
  let h := PosixHost.host
             {[ "enabled" := VNum 1; "path" := VStr "%TM_UNSET%/history/%TM_DIR%";
                "absolute" := VBool true ]}
             {[ "TM_DIR" := "store" ]} [] in
  expand_env_and_home h "%TM_UNSET%/history/%TM_DIR%" = "undefined/history/store"
  /\ exists o st,
      get h new {| fsPath := "/workspace/test.ts" |} = (Normal o, st)
      /\ historyPath (value o) = VStr "undefined/history/store/.history".
Proof.
  intros h. split; [vm_compute; reflexivity|].
  eexists _, _. split; [vm_compute; reflexivity|]. reflexivity.
Qed.

(** ** The position of the workspace-folder token *)

(** A token found beyond index 1 is reported and leaves no path. *)
Lemma token_beyond_index_one (h : Host) (wf : option Uri) (file : Uri)
    (ws : option WorkspaceFolder) (configured : string) (m : RegExpMatch) :
  strict_eq_num (config_get h "enabled") 0 = false ->
  config_get h "path" = VStr configured ->
  configured <> EmptyString ->
  match_workspace_token (expand_env_and_home h configured) = Some m ->
  1 < m_index m ->
  exists r,
    read h wf file ws
    = (type_warnings (config_get h "enabled") (config_get h "exclude")
       ++ [ErrorMessage ("${workspaceFolder} must starts settings time-machine.path "
                         +:+ expand_env_and_home h configured)],
       Normal r)
    /\ historyPath r = VNull /\ enabled r = false.
Proof.
  intros EN P NE M I. unfold read, locate. rewrite EN, P. simpl negb. cbv iota.
  destruct configured as [|c0 r0]; [congruence|].
  unfold resolve_workspace_token. rewrite M.
  apply Nat.ltb_lt in I. rewrite I. simpl.
  eexists. split; [reflexivity|]. split; reflexivity.
Qed.

(** C2.  A token at index 1 is not at the very start of the string, yet
    line 140 tests [match.index > 1]: no error is shown, the token is
    replaced where it stands and history is enabled. *)
Theorem C2_token_at_index_one_is_accepted :
  let workspace := PosixHost.folder "/workspace" "test-workspace" 0 in
  let h := PosixHost.host
             {[ "enabled" := VNum 1; "path" := VStr "x${workspaceFolder}/h";
                "absolute" := VBool false ]} ∅ [workspace] in
  option_map m_index (match_workspace_token (expand_env_and_home h "x${workspaceFolder}/h"))
  = Some 1
  /\ exists o st,
      get h new {| fsPath := "/workspace/test.ts" |} = (Normal o, st)
      /\ shown st = []
      /\ historyPath (value o) = VStr "x/workspace/h/.history/workspace"
      /\ enabled (value o) = true.
Proof.
  intros workspace h. split; [vm_compute; reflexivity|].
  eexists _, _. split; [vm_compute; reflexivity|]. repeat split.
Qed.

(** ** The numeric keys *)

Lemma read_days_limit_zero (h : Host) (wf : option Uri) (file : Uri)
    (ws : option WorkspaceFolder) (effects : list Effect) (r : IHistorySettings) :
  config_get h "daysLimit" = VNum 0 ->
  read h wf file ws = (effects, Normal r) ->
  daysLimit r = VNum 30.
Proof.
  intros D R. destruct (read_completion h wf file ws effects r R)
    as (? & ? & ? & _ & _ & _ & _ & _ & L).
  rewrite L, D. reflexivity.
Qed.

(** C3.  With the key [daysLimit] set to 0 the record does not carry 0:
    line 197 reads [config.get('daysLimit') || 30] and 0 is falsy, so the
    record carries 30. *)
Theorem C3_days_limit_zero_becomes_thirty :
  let workspace := PosixHost.folder "/workspace" "test-workspace" 0 in
  let h := PosixHost.host
             {[ "enabled" := VNum 1; "path" := VStr ""; "daysLimit" := VNum 0 ]}
             ∅ [workspace] in
  config_get h "daysLimit" = VNum 0
  /\ exists o st,
      get h new {| fsPath := "/workspace/test.ts" |} = (Normal o, st)
      /\ daysLimit (value o) = VNum 30.
Proof.
  intros workspace h. split; [reflexivity|].
  eexists _, _. split; [vm_compute; reflexivity|]. reflexivity.
Qed.

(** ** [enabled] and [historyPath] *)

Lemma layout_string_or_absent (h : Host) (en : JsValue) (wf : option Uri)
    (resolved : option string) (hws : option Uri) :
  string_or_absent (fst (layout h en wf resolved hws)).
Proof.
  unfold layout. destruct resolved as [[|c r]|]; simpl; trivial.
  destruct (_ || _); simpl; trivial. destruct wf; simpl; trivial.
Qed.

(** When the key [path] holds a string, or nothing, line 208 does compute
    "[historyPath] is a non-empty string". *)
Lemma enabled_iff_nonempty_string (h : Host) (wf : option Uri) (file : Uri)
    (ws : option WorkspaceFolder) (effects : list Effect) (r : IHistorySettings) :
  string_or_absent (config_get h "path") ->
  read h wf file ws = (effects, Normal r) ->
  enabled r = true <-> exists s, historyPath r = VStr s /\ s <> EmptyString.
Proof.
  intros T R. destruct (read_completion h wf file ws effects r R)
    as (located & abs & effects' & L & HP & _ & EN & _).
  assert (S : string_or_absent located).
  { revert L. unfold locate. destruct (strict_eq_num _ 0); simpl.
    - intros H. inversion H. exact I.
    - destruct (config_get h "path") as [| | | |[|c p]|]; try contradiction;
        try (destruct wf; intros H; inversion H; exact I).
      destruct (resolve_workspace_token h wf _) as [eff [[resolved hws]|]]; [|discriminate].
      pose proof (layout_string_or_absent h (config_get h "enabled") wf resolved hws) as LS.
      destruct (layout _ _ _ _ _). intros H. inversion H; subst. exact LS. }
  rewrite EN, HP.
  destruct located as [| | | |[|c p]|]; simpl in *; try contradiction; split;
    try discriminate; try (intros (s & E & N); congruence).
  intros _. eexists. split; [reflexivity | discriminate].
Qed.

(** C9.  The key [path] holding an array (what the helper [createConfig]
    of the test suite hands out for an unset key) and the file lying
    outside every root: [enabled] is true although [historyPath] is no
    string.  Lines 126 and 191 test [typeof historyPath === 'string'], line
    208 does not. *)
Theorem C9_enabled_without_a_string_path :
  let h := PosixHost.host {[ "enabled" := VNum 1; "path" := VArr [] ]} ∅ [] in
  exists o st,
    get h new {| fsPath := "/outside/test.ts" |} = (Normal o, st)
    /\ enabled (value o) = true
    /\ historyPath (value o) = VArr []
    /\ ~ exists s, historyPath (value o) = VStr s.
Proof.
  intros h. eexists _, _. split; [vm_compute; reflexivity|].
  repeat split. intros [s E]. discriminate.
Qed.

(** ** The revision file-name codec *)

Import HistoryController.

Lemma is_char_eq (c : ascii) (n : nat) : is_char c n = true -> c = ascii_of_nat n.
Proof.
  unfold is_char, code. intros H. apply Nat.eqb_eq in H.
  rewrite <- H. symmetry. apply ascii_nat_embedding.
Qed.

Lemma digit_char_spec (n : Z) :
  is_digit (digit_char n) = true /\ Z.of_nat (digit_value (digit_char n)) = (n mod 10)%Z.
Proof.
  unfold digit_char.
  assert (B : (0 <= n mod 10 < 10)%Z) by (apply Z.mod_pos_bound; lia).
  assert (E : (n mod 10)%Z = Z.of_nat (Z.to_nat (n mod 10))) by lia.
  assert (K : Z.to_nat (n mod 10) < 10) by lia.
  rewrite E at 3. clear E B.
  destruct (Z.to_nat (n mod 10)) as [|[|[|[|[|[|[|[|[|[|k]]]]]]]]]];
    try (split; reflexivity). lia.
Qed.

Lemma digit_is_not_slash (c : ascii) : is_digit c = true -> is_char c 47 = false.
Proof.
  unfold is_digit, is_char. intros H. apply andb_prop in H. destruct H as [L _].
  apply Nat.leb_le in L. apply Nat.eqb_neq. lia.
Qed.

Lemma digit_is_not_underscore (c : ascii) : is_digit c = true -> is_char c 95 = false.
Proof.
  unfold is_digit, is_char. intros H. apply andb_prop in H. destruct H as [_ U].
  apply Nat.leb_le in U. apply Nat.eqb_neq. lia.
Qed.

Lemma digits_value_cons (acc : Z) (c : ascii) (r : string) :
  is_digit c = true ->
  digits_value acc (String c r) = digits_value (10 * acc + Z.of_nat (digit_value c)) r.
Proof. intros D. simpl. rewrite D. reflexivity. Qed.

Lemma number_pad2 (n : Z) : (0 <= n < 100)%Z -> number (pad2 n) = n.
Proof.
  intros B. unfold number, pad2.
  destruct (digit_char_spec (n / 10)) as [D1 V1], (digit_char_spec n) as [D0 V0].
  rewrite !digits_value_cons by assumption. simpl digits_value.
  rewrite V1, V0. Z.div_mod_to_equations. lia.
Qed.

Lemma decimal_digits4 (n : Z) :
  (0 <= n < 10000)%Z ->
  (10 * (10 * (10 * ((n / 1000) mod 10) + (n / 100) mod 10) + (n / 10) mod 10) + n mod 10 = n)%Z.
Proof.
  intros B.
  assert (E2 : (n / 100 = n / 10 / 10)%Z) by (rewrite Z.div_div by lia; reflexivity).
  assert (E3 : (n / 1000 = n / 10 / 10 / 10)%Z) by (rewrite !Z.div_div by lia; reflexivity).
  rewrite E2, E3.
  pose proof (Z.div_mod n 10 ltac:(lia)).
  pose proof (Z.div_mod (n / 10) 10 ltac:(lia)).
  pose proof (Z.div_mod (n / 10 / 10) 10 ltac:(lia)).
  pose proof (Z.div_mod (n / 10 / 10 / 10) 10 ltac:(lia)).
  pose proof (Z.mod_pos_bound n 10 ltac:(lia)).
  pose proof (Z.mod_pos_bound (n / 10) 10 ltac:(lia)).
  pose proof (Z.mod_pos_bound (n / 10 / 10) 10 ltac:(lia)).
  pose proof (Z.mod_pos_bound (n / 10 / 10 / 10) 10 ltac:(lia)).
  generalize dependent (n / 10 / 10 / 10 / 10)%Z.
  generalize dependent ((n / 10 / 10 / 10) mod 10)%Z.
  generalize dependent (n / 10 / 10 / 10)%Z.
  generalize dependent ((n / 10 / 10) mod 10)%Z.
  generalize dependent (n / 10 / 10)%Z.
  generalize dependent ((n / 10) mod 10)%Z.
  generalize dependent (n / 10)%Z.
  generalize dependent (n mod 10)%Z.
  intros. lia.
Qed.

Lemma number_pad4 (n : Z) : (0 <= n < 10000)%Z -> number (pad4 n) = n.
Proof.
  intros B. unfold number, pad4, pad2.
  destruct (digit_char_spec (n / 1000)) as [D3 V3], (digit_char_spec (n / 100)) as [D2 V2],
           (digit_char_spec (n / 10)) as [D1 V1], (digit_char_spec n) as [D0 V0].
  rewrite !digits_value_cons by assumption. simpl digits_value.
  rewrite V3, V2, V1, V0. pose proof (decimal_digits4 n B). lia.
Qed.

Lemma all_digits_app (a b : string) :
  all_digits (a +:+ b) = all_digits a && all_digits b.
Proof.
  induction a as [|c a IH]; simpl; [reflexivity|].
  rewrite IH. apply andb_assoc.
Qed.

Lemma all_digits_pad2 (n : Z) : all_digits (pad2 n) = true.
Proof.
  unfold pad2. cbn [all_digits].
  rewrite (proj1 (digit_char_spec (n / 10))), (proj1 (digit_char_spec n)). reflexivity.
Qed.

Lemma all_digits_pad4 (n : Z) : all_digits (pad4 n) = true.
Proof.
  unfold pad4. cbn [all_digits]. rewrite all_digits_pad2.
  rewrite (proj1 (digit_char_spec (n / 1000))), (proj1 (digit_char_spec (n / 100))).
  reflexivity.
Qed.

Lemma timestamp_digits_shape (t : Timestamp) :
  String.length (timestamp_digits t) = 14 /\ all_digits (timestamp_digits t) = true.
Proof.
  unfold timestamp_digits. split.
  - rewrite !string_app_length. reflexivity.
  - rewrite !all_digits_app, all_digits_pad4, !all_digits_pad2. reflexivity.
Qed.

Lemma parse_timestamp_digits (t : Timestamp) :
  valid_timestamp t -> parse_timestamp (timestamp_digits t) = t.
Proof.
  unfold valid_timestamp. destruct t as [y m d h mi s].
  cbn [year month day hours minutes seconds].
  intros (Y & M & D & H & MI & S).
  unfold parse_timestamp.
  change (take 4 (timestamp_digits (Build_Timestamp y m d h mi s))) with (pad4 y).
  change (take 2 (drop 4 (timestamp_digits (Build_Timestamp y m d h mi s)))) with (pad2 (m + 1)).
  change (take 2 (drop 6 (timestamp_digits (Build_Timestamp y m d h mi s)))) with (pad2 d).
  change (take 2 (drop 8 (timestamp_digits (Build_Timestamp y m d h mi s)))) with (pad2 h).
  change (take 2 (drop 10 (timestamp_digits (Build_Timestamp y m d h mi s)))) with (pad2 mi).
  change (take 2 (drop 12 (timestamp_digits (Build_Timestamp y m d h mi s)))) with (pad2 s).
  rewrite number_pad4, !number_pad2 by lia.
  f_equal. lia.
Qed.

Lemma take_drop_app (a b : string) :
  take (String.length a) (a +:+ b) = a /\ drop (String.length a) (a +:+ b) = b.
Proof.
  induction a as [|c a [IH1 IH2]]; simpl.
  - split; [destruct b|]; reflexivity.
  - rewrite IH1. split; [reflexivity | exact IH2].
Qed.

Lemma take_drop_id (n : nat) (s : string) : take n s +:+ drop n s = s.
Proof.
  revert s. induction n as [|n IH]; intros s; [reflexivity|].
  destruct s as [|c s]; simpl; [reflexivity | now rewrite IH].
Qed.

Lemma split_timestamp_digits (d rest : string) :
  all_digits d = true ->
  split_timestamp rest = None ->
  split_timestamp (d +:+ rest) = None.
Proof.
  intros A N. induction d as [|c d IH]; simpl; [exact N|].
  simpl in A. apply andb_prop in A. destruct A as [C A].
  rewrite (IH A), (digit_is_not_underscore c C). reflexivity.
Qed.

Lemma digits14_at_block (d rest : string) :
  String.length d = 14 ->
  all_digits d = true ->
  digits14_at (d +:+ rest) = Some (d, rest).
Proof.
  intros L A. unfold digits14_at.
  destruct (take_drop_app d rest) as [T D]. rewrite L in T, D.
  rewrite T, D, L, A. reflexivity.
Qed.

(** The split finds the block written by the encoder. *)
Lemma split_timestamp_encoded (before d rest : string) :
  String.length d = 14 ->
  all_digits d = true ->
  split_timestamp rest = None ->
  split_timestamp (before +:+ String "_" (d +:+ rest)) = Some (before, d, rest).
Proof.
  intros L A N. induction before as [|c before IH]; simpl.
  - rewrite (split_timestamp_digits d rest A N).
    change (is_char "_" 95) with true. cbv iota.
    rewrite (digits14_at_block d rest L A). reflexivity.
  - simpl in IH. rewrite IH. reflexivity.
Qed.

Lemma no_slash_app (a b : string) :
  no_slash (a +:+ b) = no_slash a && no_slash b.
Proof.
  induction a as [|c a IH]; simpl; [reflexivity|].
  rewrite IH. apply andb_assoc.
Qed.

Lemma all_digits_no_slash (d : string) : all_digits d = true -> no_slash d = true.
Proof.
  induction d as [|c d IH]; simpl; [reflexivity|].
  intros H. apply andb_prop in H. destruct H as [C A].
  rewrite (digit_is_not_slash c C), (IH A). reflexivity.
Qed.

Lemma file_name_plain (f : string) : no_slash f = true -> file_name f = f.
Proof.
  unfold file_name.
  assert (S : no_slash f = true -> PosixPath.segments f = [f]).
  { induction f as [|c f IH]; simpl; [reflexivity|].
    intros H. apply andb_prop in H. destruct H as [C N].
    apply negb_true_iff in C. rewrite C, (IH N). reflexivity. }
  intros N. rewrite (S N). reflexivity.
Qed.

(** C5.  Round trip of the codec: for a valid triple, decoding the name
    written by [encode] gives back the stem, the extension and the
    timestamp, second for second (the month is written 1-based and read
    back 0-based). *)
Theorem C5_decode_encode_round_trip :
  forall (looksLikeHistoryEntry : string -> bool) (sourceName ext : string) (t : Timestamp),
    valid_triple sourceName ext t ->
    decode looksLikeHistoryEntry (encode sourceName ext t)
    = Some {| stem := sourceName; HistoryController.ext := ext; timestamp := Some t |}.
Proof.
  intros looks sourceName e t (NS & NE & X & NT & V).
  destruct (timestamp_digits_shape t) as [L A].
  unfold decode, encode.
  change (sourceName +:+ "_" +:+ timestamp_digits t +:+ e)
    with (sourceName +:+ String "_" (timestamp_digits t +:+ e)).
  rewrite file_name_plain.
  - rewrite (split_timestamp_encoded sourceName (timestamp_digits t) e L A NT).
    rewrite X, (parse_timestamp_digits t V). reflexivity.
  - rewrite no_slash_app.
    change (no_slash (String "_" (timestamp_digits t +:+ e)))
      with (no_slash (timestamp_digits t +:+ e)).
    rewrite no_slash_app, NS, NE, (all_digits_no_slash _ A). reflexivity.
Qed.

Lemma C5_decode_encode_round_trip_witness :
  let t := {| year := 2024; month := 11; day := 25; hours := 14; minutes := 30; seconds := 0 |} in
  encode "test.config" ".js" t = "test.config_20241225143000.js"
  /\ decode in_history_directory "test.config_20241225143000.js"
     = Some {| stem := "test.config"; ext := ".js"; timestamp := Some t |}.
Proof.
  intros t. split; [reflexivity|].
  apply (C5_decode_encode_round_trip in_history_directory "test.config" ".js" t).
  repeat split; try reflexivity; simpl; lia.
Defined.

(** What the split returns is a block in the file name. *)
Lemma split_timestamp_sound (s before d rest : string) :
  split_timestamp s = Some (before, d, rest) ->
  s = before +:+ "_" +:+ d +:+ rest
  /\ String.length d = 14 /\ all_digits d = true.
Proof.
  revert before. induction s as [|c s IH]; intros before; simpl; [discriminate|].
  destruct (split_timestamp s) as [[[b0 d0] r0]|].
  - intros H. inversion H; subst; clear H.
    destruct (IH b0 eq_refl) as (E & L & A). split; [|split; assumption].
    exact (f_equal (String c) E).
  - destruct (is_char c 95) eqn:C; [|discriminate].
    unfold digits14_at.
    destruct ((String.length (take 14 s) =? 14) && all_digits (take 14 s)) eqn:B; [|discriminate].
    intros H. inversion H; subst; clear H.
    apply andb_prop in B. destruct B as [L A]. apply Nat.eqb_eq in L.
    split; [|split; assumption].
    rewrite (is_char_eq c 95 C).
    exact (f_equal (String "_") (eq_sym (take_drop_id 14 s))).
Qed.

(** A block in the file name is found by the split. *)
Lemma split_timestamp_complete (before d rest : string) :
  String.length d = 14 ->
  all_digits d = true ->
  split_timestamp (before +:+ String "_" (d +:+ rest)) <> None.
Proof.
  intros L A. induction before as [|c before IH].
  - change (EmptyString +:+ String "_" (d +:+ rest)) with (String "_" (d +:+ rest)).
    cbn [split_timestamp].
    destruct (split_timestamp (d +:+ rest)) as [[[b0 d0] r0]|]; [discriminate|].
    change (is_char "_" 95) with true. cbv iota.
    rewrite (digits14_at_block d rest L A). discriminate.
  - change (String c before +:+ String "_" (d +:+ rest))
      with (String c (before +:+ String "_" (d +:+ rest))).
    cbn [split_timestamp].
    destruct (split_timestamp (before +:+ String "_" (d +:+ rest))) as [[[b0 d0] r0]|];
      [discriminate | contradiction].
Qed.

Lemma no_block_when_split_fails (f : string) :
  split_timestamp f = None -> ~ has_timestamp_block f.
Proof.
  intros N (before & d & rest & E & L & A & _). subst f.
  exact (split_timestamp_complete before d rest L A N).
Qed.

(** C6.  A path whose file name holds no well-formed block (underscore, 14
    digits, extension): [decode] fails with null, without raising, when the
    path looks like a history entry, and returns a record without timestamp
    when it does not. *)
Theorem C6_decode_without_timestamp_block :
  forall (looksLikeHistoryEntry : string -> bool) (path : string),
    ~ has_timestamp_block (file_name path) ->
    (looksLikeHistoryEntry path = true -> decode looksLikeHistoryEntry path = None)
    /\ (looksLikeHistoryEntry path = false ->
        exists r, decode looksLikeHistoryEntry path = Some r /\ timestamp r = None).
Proof.
  intros looks path N.
  assert (D : decode looks path = without_timestamp (looks path) (file_name path)).
  { unfold decode.
    destruct (split_timestamp (file_name path)) as [[[before d] rest]|] eqn:S; [|reflexivity].
    destruct (is_extension rest) eqn:X; [|reflexivity].
    exfalso. apply N. destruct (split_timestamp_sound _ _ _ _ S) as (E & L & A).
    exists before, d, rest. repeat split; assumption. }
  rewrite D. unfold without_timestamp. split; intros L; rewrite L.
  - reflexivity.
  - eexists. split; reflexivity.
Qed.

Lemma C6_decode_without_timestamp_block_witness :
  decode in_history_directory "/workspace/.history/invalid_filename.ts" = None
  /\ exists r, decode in_history_directory "/workspace/invalid_file.ts" = Some r
               /\ timestamp r = None.
Proof.
  split.
  - apply (C6_decode_without_timestamp_block in_history_directory
             "/workspace/.history/invalid_filename.ts");
      [apply no_block_when_split_fails|]; reflexivity.
  - apply (C6_decode_without_timestamp_block in_history_directory "/workspace/invalid_file.ts");
      [apply no_block_when_split_fails|]; reflexivity.
Defined.

(* ================================================================== *)
(** * Further properties of [src/history.settings.ts]                  *)
(* ================================================================== *)

(** ** The cache, lines 45-81 *)

Lemma same_folder_spec (f : option Uri) (v : IHistorySettings) :
  same_folder f v = true <-> option_map fsPath (folder v) = option_map fsPath f.
Proof.
  unfold same_folder. destruct f as [f|], (folder v) as [g|]; simpl.
  - rewrite String.eqb_eq. split; [intros E; now rewrite E | intros E; now injection E].
  - split; discriminate.
  - split; discriminate.
  - split; reflexivity.
Qed.

Lemma owner_key_unfold (h : Host) (file : Uri) :
  owner_key h file
  = option_map fsPath (option_map wf_uri (getWorkspaceFolder h (fsPath file))).
Proof. unfold owner_key. destruct (getWorkspaceFolder h (fsPath file)); reflexivity. Qed.

(** X1.  [get] never hands out the settings of another root: the [folder]
    of the returned record has the path of the root owning the file, and
    the record has no [folder] exactly when the file has no owning root.
    This holds for a cached record and for a computed one. *)
Theorem X1_get_serves_the_owning_root :
  forall (h : Host) (st : State) (file : Uri) (o : SettingsObject) (st' : State),
    get h st file = (Normal o, st') ->
    cache_key o = owner_key h file.
Proof.
  intros h st file o st'. rewrite owner_key_unfold. unfold get, cache_key.
  destruct (List.find _ (settings st)) as [cached|] eqn:F.
  - intros H. inversion H; subst; clear H.
    apply find_some in F. destruct F as [_ F]. apply same_folder_spec, F.
  - destruct (read h _ file _) as [effects [computed|]] eqn:R; [|discriminate].
    intros H. inversion H; subst; clear H. simpl.
    rewrite (read_folder _ _ _ _ _ _ R). reflexivity.
Qed.

Lemma X1_get_serves_the_owning_root_witness :
  let workspace := PosixHost.folder "/workspace" "test-workspace" 0 in
  let h := PosixHost.host {[ "enabled" := VNum 1; "path" := VStr "" ]} ∅ [workspace] in
  let file := {| fsPath := "/workspace/src/a.ts" |} in
  exists o st', get h new file = (Normal o, st') /\ cache_key o = Some "/workspace".
Proof.
  intros workspace h file.
  destruct (get h new file) as [[o|] st'] eqn:G; [|vm_compute in G; discriminate].
  exists o, st'. split; [reflexivity|].
  exact (X1_get_serves_the_owning_root h new file o st' G).
Defined.

Lemma nodup_snoc {A : Type} (l : list A) (a : A) :
  List.NoDup l -> ~ In a l -> List.NoDup (l ++ [a]).
Proof.
  induction 1 as [|x l N _ IH]; intros NI; simpl.
  - constructor; [intros []|constructor].
  - constructor.
    + rewrite in_app_iff. intros [I|[E|[]]]; [exact (N I)|].
      apply NI. left. symmetry. exact E.
    + apply IH. intros I. apply NI. right. exact I.
Qed.

Lemma get_keeps_keys_distinct (h : Host) (st : State) (file : Uri) :
  List.NoDup (map cache_key (settings st)) ->
  List.NoDup (map cache_key (settings (snd (get h st file)))).
Proof.
  intros N. unfold get.
  destruct (List.find _ (settings st)) as [cached|] eqn:F; [exact N|].
  destruct (read h _ file _) as [effects [computed|]] eqn:R; [|exact N].
  simpl. rewrite map_app. apply nodup_snoc; [exact N|].
  simpl. unfold cache_key at 1. simpl. rewrite (read_folder _ _ _ _ _ _ R).
  intros I. apply in_map_iff in I. destruct I as (x & K & I).
  pose proof (find_none _ _ F x I) as B. simpl in B.
  assert (T : same_folder (option_map wf_uri (getWorkspaceFolder h (fsPath file))) (value x) = true)
    by (apply same_folder_spec; exact K).
  congruence.
Qed.

(** X2.  The cache never holds two objects for one owning root: whatever
    calls of [get] follow a [clear()] (or the construction), the cached
    objects have pairwise different keys, the ownerless key included. *)
Theorem X2_one_cached_object_per_root :
  forall (st : State) (calls : list (Host * Uri)),
    List.NoDup (map cache_key (settings (gets (clear st) calls)))
    /\ List.NoDup (map cache_key (settings (gets new calls))).
Proof.
  assert (G : forall calls st0,
             List.NoDup (map cache_key (settings st0)) ->
             List.NoDup (map cache_key (settings (gets st0 calls)))).
  { unfold gets. induction calls as [|[h f] calls IH]; intros st0 N; simpl; [exact N|].
    apply IH, get_keeps_keys_distinct, N. }
  intros st calls. split; apply G; constructor.
Qed.

(** ** When [read] throws, lines 146-149 *)

Lemma read_throws_locate (h : Host) (wf : option Uri) (file : Uri) (ws : option WorkspaceFolder) :
  snd (read h wf file ws) = TypeError
  <-> snd (locate h (config_get h "enabled") wf) = TypeError.
Proof.
  unfold read. destruct (locate h (config_get h "enabled") wf) as [effects [[l a]|]]; simpl.
  - split; discriminate.
  - split; reflexivity.
Qed.

Lemma resolve_throws (h : Host) (wf : option Uri) (expanded : string) :
  snd (resolve_workspace_token h wf expanded) = TypeError
  <-> (workspaceFolders h = None
       /\ exists m wsId,
           match_workspace_token expanded = Some m
           /\ m_index m <= 1 /\ m_1 m = Some wsId /\ wsId <> EmptyString).
Proof.
  unfold resolve_workspace_token. split.
  - destruct (match_workspace_token expanded) as [m|] eqn:M; [|discriminate].
    destruct (1 <? m_index m) eqn:I; [discriminate|].
    apply Nat.ltb_ge in I.
    destruct (m_1 m) as [[|c1 q]|] eqn:Q; try discriminate.
    destruct (workspaceFolders h) as [folders|] eqn:W.
    + destruct (List.find _ folders); discriminate.
    + intros _. split; [reflexivity|].
      exists m, (String c1 q). repeat split; try assumption; discriminate.
  - intros (W & m & wsId & M & I & Q & QN). rewrite M.
    apply Nat.ltb_ge in I. rewrite I, Q.
    destruct wsId as [|c1 q]; [congruence|].
    rewrite W. reflexivity.
Qed.

Lemma read_throws_no_folders (h : Host) (wf : option Uri) (file : Uri)
    (ws : option WorkspaceFolder) (effects : list Effect) :
  read h wf file ws = (effects, TypeError) -> workspaceFolders h = None.
Proof.
  intros R. pose proof (proj1 (read_throws_locate h wf file ws)) as T.
  rewrite R in T. specialize (T eq_refl). revert T. unfold locate.
  destruct (strict_eq_num (config_get h "enabled") 0); [discriminate|].
  simpl negb. cbv iota.
  destruct (config_get h "path") as [| | | |[|c p]|];
    try (destruct wf; discriminate).
  destruct (resolve_workspace_token h wf _) as [eff [[r hws]|]] eqn:V; [discriminate|].
  intros _. pose proof (proj1 (resolve_throws h wf (expand_env_and_home h (String c p)))) as U.
  rewrite V in U. exact (proj1 (U eq_refl)).
Qed.

(** X3.  [read] throws in one situation only: the mode is not Never, the
    key [path] holds a template whose workspace-folder token stands at
    index 0 or 1 and carries a non-empty qualifier, and no folder is open
    ([workspaceFolders] is undefined), so that [.find] is called on
    [undefined]. *)
Theorem X3_read_throws_only_without_folder_list :
  forall (h : Host) (workspacefolder : option Uri) (file : Uri) (ws : option WorkspaceFolder),
    snd (read h workspacefolder file ws) = TypeError
    <-> (strict_eq_num (config_get h "enabled") 0 = false
         /\ workspaceFolders h = None
         /\ exists configured m wsId,
             config_get h "path" = VStr configured
             /\ configured <> EmptyString
             /\ match_workspace_token (expand_env_and_home h configured) = Some m
             /\ m_index m <= 1
             /\ m_1 m = Some wsId
             /\ wsId <> EmptyString).
Proof.
  intros h wf file ws. rewrite read_throws_locate. unfold locate. split.
  - destruct (strict_eq_num (config_get h "enabled") 0) eqn:EN; [discriminate|].
    simpl negb. cbv iota.
    destruct (config_get h "path") as [| | | |[|c p]|] eqn:P;
      try (destruct wf; discriminate).
    destruct (resolve_workspace_token h wf _) as [effects [[r hws]|]] eqn:R; [discriminate|].
    intros _.
    pose proof (proj1 (resolve_throws h wf (expand_env_and_home h (String c p)))) as T.
    rewrite R in T. destruct (T eq_refl) as (W & m & wsId & M & I & Q & QN).
    split; [reflexivity|]. split; [exact W|].
    exists (String c p), m, wsId. repeat split; try assumption; discriminate.
  - intros (EN & W & configured & m & wsId & P & NE & M & I & Q & QN).
    rewrite EN, P. simpl negb. cbv iota.
    destruct configured as [|c p]; [congruence|].
    pose proof (proj2 (resolve_throws h wf (expand_env_and_home h (String c p)))) as T.
    destruct (resolve_workspace_token h wf _) as [effects [[r hws]|]]; [|reflexivity].
    simpl in T. assert (X : @Normal (option string * option Uri) (r, hws) = TypeError).
    { apply T. split; [exact W|]. exists m, wsId. repeat split; assumption. }
    discriminate.
Qed.

(** X4.  A call of [get] that throws caches nothing and creates no object:
    [this.settings] is as before, so the next call for that root runs
    [read] again.  It throws only on a cache miss with no folder open. *)
Theorem X4_failed_get_caches_nothing :
  forall (h : Host) (st : State) (file : Uri) (st' : State),
    get h st file = (TypeError, st') ->
    settings st' = settings st
    /\ allocated st' = allocated st
    /\ configReads st' = S (configReads st)
    /\ workspaceFolders h = None
    /\ Forall (fun o => cache_key o <> owner_key h file) (settings st).
Proof.
  intros h st file st'. rewrite owner_key_unfold. unfold get.
  destruct (List.find _ (settings st)) as [cached|] eqn:F; [discriminate|].
  destruct (read h _ file _) as [effects [computed|]] eqn:R; [discriminate|].
  intros H. inversion H; subst; clear H. simpl.
  repeat split.
  - exact (read_throws_no_folders _ _ _ _ _ R).
  - apply List.Forall_forall. intros x I K.
    pose proof (find_none _ _ F x I) as B. simpl in B.
    apply same_folder_spec in K. congruence.
Qed.

Lemma X4_failed_get_caches_nothing_witness :
  let h := {| configuration := {[ "enabled" := VNum 1;
                                  "path" := VStr "${workspaceFolder: 0}/history" ]};
              getWorkspaceFolder := fun _ => None;
              workspaceFolders := None;
              process_env := ∅;
              os_homedir := "/home/user";
              path_sep := PosixPath.sep;
              path_join := PosixPath.join;
              path_basename := PosixPath.basename;
              isPathInside := PosixHost.inside;
              isIntegerMinusOne := PosixHost.decimal_index |} in
  let file := {| fsPath := "/tmp/note.txt" |} in
  fst (get h new file) = TypeError
  /\ settings (snd (get h new file)) = []
  /\ workspaceFolders h = None.
Proof.
  intros h file.
  destruct (get h new file) as [[o|] st'] eqn:G; [vm_compute in G; discriminate|].
  destruct (X4_failed_get_caches_nothing h new file st' G) as (S & _ & _ & W & _).
  repeat split; assumption.
Defined.

(** ** Messages, lines 104-122, 141 and 153 *)

Lemma type_warnings_cases (e x : JsValue) :
  (typeof_boolean e || typeof_string x = true ->
   exists text, type_warnings e x = [WarningMessage text])
  /\ (typeof_boolean e || typeof_string x = false -> type_warnings e x = []).
Proof.
  unfold type_warnings.
  destruct (typeof_boolean e), (typeof_string x); simpl; split;
    try discriminate; intros _; try reflexivity; eexists; reflexivity.
Qed.

Lemma resolve_effects (h : Host) (wf : option Uri) (expanded : string) :
  fst (resolve_workspace_token h wf expanded) = []
  \/ exists text, fst (resolve_workspace_token h wf expanded) = [ErrorMessage text].
Proof.
  unfold resolve_workspace_token.
  destruct (match_workspace_token expanded) as [m|]; [|left; reflexivity].
  destruct (1 <? m_index m); [right; eexists; reflexivity|].
  destruct (m_1 m) as [[|c q]|]; try (left; reflexivity).
  destruct (workspaceFolders h) as [folders|]; [|left; reflexivity].
  destruct (List.find _ folders); [left; reflexivity | right; eexists; reflexivity].
Qed.

Lemma locate_effects (h : Host) (en : JsValue) (wf : option Uri) :
  fst (locate h en wf) = []
  \/ exists text, fst (locate h en wf) = [ErrorMessage text].
Proof.
  unfold locate. destruct (negb (strict_eq_num en 0)); [|left; reflexivity].
  destruct (config_get h "path") as [| | | |[|c p]|];
    try (destruct wf; left; reflexivity).
  pose proof (resolve_effects h wf (expand_env_and_home h (String c p))) as R.
  destruct (resolve_workspace_token h wf _) as [effects [[r hws]|]]; exact R.
Qed.

Lemma read_effects (h : Host) (wf : option Uri) (file : Uri) (ws : option WorkspaceFolder) :
  fst (read h wf file ws)
  = type_warnings (config_get h "enabled") (config_get h "exclude")
    ++ fst (locate h (config_get h "enabled") wf).
Proof.
  unfold read. destruct (locate h (config_get h "enabled") wf) as [effects [[l a]|]];
    reflexivity.
Qed.

(** X5.  One run of [read] shows exactly one warning when the key [enabled]
    holds a boolean or the key [exclude] a string (one message naming every
    faulty key), and none otherwise; it shows at most one error message;
    and the warning, when there is one, is shown first. *)
Theorem X5_one_warning_for_wrong_types :
  forall (h : Host) (workspacefolder : option Uri) (file : Uri) (ws : option WorkspaceFolder),
    let effects := fst (read h workspacefolder file ws) in
    length (List.filter is_warning effects) = (if wrongly_typed h then 1 else 0)
    /\ length (List.filter is_error effects) <= 1
    /\ (forall text, In (WarningMessage text) effects ->
                     nth_error effects 0 = Some (WarningMessage text)).
Proof.
  intros h wf file ws effects. subst effects. rewrite read_effects.
  unfold wrongly_typed.
  destruct (type_warnings_cases (config_get h "enabled") (config_get h "exclude")) as [T F].
  destruct (typeof_boolean (config_get h "enabled") || typeof_string (config_get h "exclude")).
  - destruct (T eq_refl) as [text W]. rewrite W.
    destruct (locate_effects h (config_get h "enabled") wf) as [L|[t L]]; rewrite L; simpl.
    + repeat split; [lia|]. intros text' [E|[]]. now rewrite E.
    + repeat split; [lia|]. intros text' [E|[E|[]]]; [now rewrite E | discriminate].
  - rewrite (F eq_refl).
    destruct (locate_effects h (config_get h "enabled") wf) as [L|[t L]]; rewrite L; simpl.
    + repeat split; [lia|]. intros text' [].
    + repeat split; [lia|]. intros text' [E|[]]. discriminate.
Qed.

(** ** Expansion of the template, lines 126-131 *)

Lemma replace_percent_plain (f : string -> string) (s : string) :
  has_char 37 s = false -> replace_percent_tokens f 0 s = s.
Proof.
  induction s as [|c s IH]; simpl; [reflexivity|].
  intros H. apply orb_false_elim in H. destruct H as [C H].
  rewrite C, (IH H). reflexivity.
Qed.

Lemma get_substitution_plain (matched before after repl : string) :
  has_char 36 repl = false -> get_substitution matched before after repl = repl.
Proof.
  induction repl as [|c r IH]; simpl; [reflexivity|].
  intros H. apply orb_false_elim in H. destruct H as [C H].
  rewrite C, (IH H). reflexivity.
Qed.

(** X6.  A configured path without a percent sign that does not begin with
    a tilde passes the expansion unchanged; in particular a tilde that is
    not the first character is never expanded. *)
Theorem X6_plain_path_is_not_expanded :
  forall (h : Host) (configured : string),
    has_char 37 configured = false ->
    starts_with "~" configured = false ->
    expand_env_and_home h configured = configured.
Proof.
  intros h p P T. unfold expand_env_and_home.
  rewrite (replace_percent_plain _ p P).
  destruct p as [|c p]; [reflexivity|].
  unfold replace_leading_tilde. simpl in T.
  rewrite andb_true_r in T.
  assert (C : is_char c 126 = false).
  { unfold is_char, code. apply Nat.eqb_neq. intros E.
    assert (X : c = "~"%char) by (rewrite <- (ascii_nat_embedding c), E; reflexivity).
    subst c. discriminate. }
  rewrite C. reflexivity.
Qed.

Lemma X6_plain_path_is_not_expanded_witness :
  let h := PosixHost.host ∅ {[ "HOME" := "/home/user" ]} [] in
  expand_env_and_home h "/data/~backup/history" = "/data/~backup/history".
Proof.
  intros h. apply (X6_plain_path_is_not_expanded h "/data/~backup/history"); reflexivity.
Defined.



(** X8.  The first environment token of a path, naming a variable that is
    set, is replaced by the variable's value; what precedes it is kept, what
    follows it is expanded in turn, and the tilde rule then applies to the
    result (so a value that opens the path with a tilde is expanded too). *)
Theorem X8_set_variable_is_substituted :
  forall (h : Host) (pre key post value : string),
    has_char 37 pre = false ->
    has_char 37 key = false ->
    key <> EmptyString ->
    process_env h !! key = Some value ->
    expand_env_and_home h (pre +:+ String "%" (key +:+ String "%" post))
    = replace_leading_tilde
        (pre +:+ value +:+ replace_percent_tokens (env_lookup h) 0 post)
        (os_homedir h).
Proof.
  intros h pre key post value P K N E. unfold expand_env_and_home.
  rewrite (expand_defined_variable h pre key post value P K N E). reflexivity.
Qed.

Lemma X8_set_variable_is_substituted_witness :
  let h := PosixHost.host ∅ {[ "TEST_VAR" := "/test/path" ]} [] in
  expand_env_and_home h "%TEST_VAR%/history" = "/test/path/history".
Proof.
  intros h.
  exact (X8_set_variable_is_substituted h "" "TEST_VAR" "/history" "/test/path"
           eq_refl eq_refl ltac:(discriminate) eq_refl).
Defined.

(** ** Separators, lines 191-193 *)

Lemma replace_slashes_none_left (sep : ascii) (s : string) :
  is_char sep 47 = false -> has_char 47 (replace_slashes sep s) = false.
Proof.
  intros S. induction s as [|c s IH]; simpl; [reflexivity|].
  rewrite IH, orb_false_r. destruct (is_char c 47) eqn:C; [exact S | exact C].
Qed.

(** X9.  The store path of a record is written in the host's separators: on
    a host whose separator is not the slash, no slash is left in a string
    [historyPath]. *)
Theorem X9_no_slash_left_on_other_separators :
  forall (h : Host) (workspacefolder : option Uri) (file : Uri) (ws : option WorkspaceFolder)
         (effects : list Effect) (r : IHistorySettings) (p : string),
    is_char (path_sep h) 47 = false ->
    read h workspacefolder file ws = (effects, Normal r) ->
    historyPath r = VStr p ->
    has_char 47 p = false.
Proof.
  intros h wf file ws effects r p S R HP.
  destruct (read_completion h wf file ws effects r R)
    as (located & abs & effects' & _ & E & _).
  rewrite HP in E. unfold to_host_separators in E.
  destruct located as [| | | |[|c q]|]; try discriminate; inversion E; subst.
  - reflexivity.
  - exact (replace_slashes_none_left (path_sep h) (String c q) S).
Qed.

Lemma X9_no_slash_left_on_other_separators_witness :
  let workspace := PosixHost.folder "C:/work" "work" 0 in
  let h := {| configuration := {[ "enabled" := VNum 1; "path" := VStr "D:/store/h" ;
                                  "absolute" := VBool true ]};
              getWorkspaceFolder := fun _ => Some workspace;
              workspaceFolders := Some [workspace];
              process_env := ∅;
              os_homedir := "C:/Users/u";
              path_sep := "\"%char;
              path_join := PosixPath.join;
              path_basename := PosixPath.basename;
              isPathInside := PosixHost.inside;
              isIntegerMinusOne := PosixHost.decimal_index |} in
  exists r, snd (read h (Some (wf_uri workspace)) {| fsPath := "C:/work/a.ts" |} (Some workspace))
            = Normal r
            /\ historyPath r = VStr "D:\store\h\.history"
            /\ has_char 47 "D:\store\h\.history" = false.
Proof.
  intros workspace h.
  destruct (read h (Some (wf_uri workspace)) {| fsPath := "C:/work/a.ts" |} (Some workspace))
    as [effects [r|]] eqn:R; [|vm_compute in R; discriminate].
  exists r. split; [reflexivity|].
  assert (HP : historyPath r = VStr "D:\store\h\.history").
  { vm_compute in R. inversion R. reflexivity. }
  split; [exact HP|].
  exact (X9_no_slash_left_on_other_separators h _ _ _ effects r _ eq_refl R HP).
Defined.

(** ** The workspace-folder token, lines 137-164 *)

Lemma read_of_resolution (h : Host) (wf : option Uri) (file : Uri) (ws : option WorkspaceFolder)
    (configured : string) (effects : list Effect) (resolved : option string)
    (hws : option Uri) :
  strict_eq_num (config_get h "enabled") 0 = false ->
  config_get h "path" = VStr configured ->
  configured <> EmptyString ->
  resolve_workspace_token h wf (expand_env_and_home h configured)
  = (effects, Normal (resolved, hws)) ->
  exists r,
    read h wf file ws
    = (type_warnings (config_get h "enabled") (config_get h "exclude") ++ effects, Normal r)
    /\ historyPath r
       = to_host_separators h (fst (layout h (config_get h "enabled") wf resolved hws))
    /\ absolute r = snd (layout h (config_get h "enabled") wf resolved hws)
    /\ enabled r
       = not_nullish_nor_empty (fst (layout h (config_get h "enabled") wf resolved hws)).
Proof.
  intros EN P NE R. unfold read, locate. rewrite EN, P. simpl negb. cbv iota.
  destruct configured as [|c p]; [congruence|].
  rewrite R. destruct (layout h (config_get h "enabled") wf resolved hws) as [l a].
  eexists. split; [reflexivity|]. cbn [historyPath absolute enabled fst snd].
  rewrite to_host_separators_enabled. repeat split.
Qed.

(** X10.  A template that opens with the bare token, written
    [${workspaceFolder}], resolves for a file with an owning root to the
    root's path followed by the rest of the template; no message is shown
    and the root is also the history target.  The root's path holds no
    dollar sign (which [replace] would read as a pattern). *)
Theorem X10_bare_token_is_the_owning_root :
  forall (h : Host) (owner : Uri) (rest : string),
    has_char 36 (fsPath owner) = false ->
    resolve_workspace_token h (Some owner) ("${workspaceFolder}" +:+ rest)
    = ([], Normal (Some (fsPath owner +:+ rest), Some owner)).
Proof.
  intros h owner rest D.
  assert (M : match_workspace_token ("${workspaceFolder}" +:+ rest)
              = Some {| m_index := 0; m_0 := "${workspaceFolder}"; m_1 := None |})
    by reflexivity.
  unfold resolve_workspace_token. rewrite M. cbn [m_index m_0 m_1 Nat.ltb Nat.leb].
  unfold substitute_folder. cbn [m_0].
  assert (R : replace_first ("${workspaceFolder}" +:+ rest) "${workspaceFolder}" (fsPath owner)
              = fsPath owner +:+ rest).
  { unfold replace_first.
    change (index_of "${workspaceFolder}" ("${workspaceFolder}" +:+ rest)) with (Some 0).
    cbv iota beta.
    change (drop (0 + String.length "${workspaceFolder}") ("${workspaceFolder}" +:+ rest))
      with rest.
    change (take 0 ("${workspaceFolder}" +:+ rest)) with EmptyString.
    rewrite (get_substitution_plain _ _ _ _ D). reflexivity. }
  rewrite R. reflexivity.
Qed.

Lemma X10_bare_token_is_the_owning_root_witness :
  let h := PosixHost.host ∅ ∅ [] in
  resolve_workspace_token h (Some {| fsPath := "/workspace" |}) "${workspaceFolder}/custom-history"
  = ([], Normal (Some "/workspace/custom-history", Some {| fsPath := "/workspace" |})).
Proof.
  intros h.
  exact (X10_bare_token_is_the_owning_root h {| fsPath := "/workspace" |} "/custom-history"
           eq_refl).
Defined.

(** X11.  A token without qualifier (or with an empty one) at index 0 or 1,
    for a file that no root owns: the path is given up without any error
    message; the record has [historyPath] null, [enabled] false and
    [absolute] undefined. *)
Theorem X11_bare_token_without_owner_fails_silently :
  forall (h : Host) (file : Uri) (ws : option WorkspaceFolder) (configured : string)
         (m : RegExpMatch),
    strict_eq_num (config_get h "enabled") 0 = false ->
    config_get h "path" = VStr configured ->
    configured <> EmptyString ->
    match_workspace_token (expand_env_and_home h configured) = Some m ->
    m_index m <= 1 ->
    (m_1 m = None \/ m_1 m = Some EmptyString) ->
    exists r,
      read h None file ws
      = (type_warnings (config_get h "enabled") (config_get h "exclude"), Normal r)
      /\ historyPath r = VNull /\ enabled r = false /\ absolute r = VUndefined.
Proof.
  intros h file ws configured m EN P NE M I Q.
  assert (R : resolve_workspace_token h None (expand_env_and_home h configured)
              = ([], Normal (None, None))).
  { unfold resolve_workspace_token. rewrite M. apply Nat.ltb_ge in I. rewrite I.
    destruct Q as [Q|Q]; rewrite Q; reflexivity. }
  destruct (read_of_resolution h None file ws configured [] None None EN P NE R)
    as (r & RD & HP & A & E).
  exists r. rewrite app_nil_r in RD. repeat split; assumption.
Qed.

Lemma X11_bare_token_without_owner_fails_silently_witness :
  let h := PosixHost.host
             {[ "enabled" := VNum 1; "path" := VStr "${workspaceFolder}/.vscode" ]} ∅ [] in
  exists r,
    read h None {| fsPath := "/tmp/note.txt" |} None = ([], Normal r)
    /\ historyPath r = VNull /\ enabled r = false /\ absolute r = VUndefined.
Proof.
  intros h.
  exact (X11_bare_token_without_owner_fails_silently h {| fsPath := "/tmp/note.txt" |} None
           "${workspaceFolder}/.vscode"
           {| m_index := 0; m_0 := "${workspaceFolder}"; m_1 := None |}
           eq_refl eq_refl ltac:(discriminate) eq_refl (le_S _ _ (le_n 0)) (or_introl eq_refl)).
Defined.

Lemma find_none_of_all_false {A : Type} (p : A -> bool) (l : list A) :
  (forall x, In x l -> p x = false) -> List.find p l = None.
Proof.
  induction l as [|a l IH]; intros H; simpl; [reflexivity|].
  rewrite (H a (or_introl eq_refl)). apply IH. intros x I. apply H. right. exact I.
Qed.

(** X12.  A qualified token at index 0 or 1 that no open folder answers to
    (by index when the qualifier is a number, by name otherwise): the error
    "workspaceFolder not found" is shown with the expanded path, and the
    record has [historyPath] null and [enabled] false. *)
Theorem X12_unknown_folder_is_reported :
  forall (h : Host) (workspacefolder : option Uri) (file : Uri) (ws : option WorkspaceFolder)
         (configured wsId : string) (m : RegExpMatch) (folders : list WorkspaceFolder),
    strict_eq_num (config_get h "enabled") 0 = false ->
    config_get h "path" = VStr configured ->
    configured <> EmptyString ->
    match_workspace_token (expand_env_and_home h configured) = Some m ->
    m_index m <= 1 ->
    m_1 m = Some wsId ->
    wsId <> EmptyString ->
    workspaceFolders h = Some folders ->
    (forall f, In f folders -> folder_matches h wsId f = false) ->
    exists r,
      read h workspacefolder file ws
      = (type_warnings (config_get h "enabled") (config_get h "exclude")
         ++ [ErrorMessage ("workspaceFolder not found " +:+ expand_env_and_home h configured)],
         Normal r)
      /\ historyPath r = VNull /\ enabled r = false /\ absolute r = VUndefined.
Proof.
  intros h wf file ws configured wsId m folders EN P NE M I Q QN W F.
  assert (R : resolve_workspace_token h wf (expand_env_and_home h configured)
              = ([ErrorMessage ("workspaceFolder not found "
                                +:+ expand_env_and_home h configured)],
                 Normal (None, None))).
  { unfold resolve_workspace_token. rewrite M. apply Nat.ltb_ge in I. rewrite I, Q.
    destruct wsId as [|c q]; [congruence|].
    rewrite W, (find_none_of_all_false _ _ F). reflexivity. }
  destruct (read_of_resolution h wf file ws configured _ None None EN P NE R)
    as (r & RD & HP & A & E).
  exists r. repeat split; assumption.
Qed.

Lemma X12_unknown_folder_is_reported_witness :
  let workspace := PosixHost.folder "/workspace" "test-workspace" 0 in
  let h := PosixHost.host
             {[ "enabled" := VNum 1; "path" := VStr "${workspaceFolder: nonexistent}/history" ]}
             ∅ [workspace] in
  exists r,
    read h (Some (wf_uri workspace)) {| fsPath := "/workspace/test.ts" |} (Some workspace)
    = ([ErrorMessage "workspaceFolder not found ${workspaceFolder: nonexistent}/history"],
       Normal r)
    /\ historyPath r = VNull /\ enabled r = false /\ absolute r = VUndefined.
Proof.
  intros workspace h.
  apply (X12_unknown_folder_is_reported h (Some (wf_uri workspace))
           {| fsPath := "/workspace/test.ts" |} (Some workspace)
           "${workspaceFolder: nonexistent}/history" "nonexistent"
           {| m_index := 0; m_0 := "${workspaceFolder: nonexistent}";
              m_1 := Some "nonexistent" |} [workspace]);
    try reflexivity; try discriminate.
  - repeat constructor.
  - intros f [E|[]]. subst f. reflexivity.
Defined.

(** X13.  A token found beyond index 1 is refused whatever it says: the
    error "must starts" is shown with the expanded path, nothing is looked
    up (so [read] returns even when no folder is open), and the record has
    [historyPath] null, [enabled] false and [absolute] undefined. *)
Theorem X13_token_beyond_index_one_is_refused :
  forall (h : Host) (workspacefolder : option Uri) (file : Uri) (ws : option WorkspaceFolder)
         (configured : string) (m : RegExpMatch),
    strict_eq_num (config_get h "enabled") 0 = false ->
    config_get h "path" = VStr configured ->
    configured <> EmptyString ->
    match_workspace_token (expand_env_and_home h configured) = Some m ->
    1 < m_index m ->
    exists r,
      read h workspacefolder file ws
      = (type_warnings (config_get h "enabled") (config_get h "exclude")
         ++ [ErrorMessage ("${workspaceFolder} must starts settings time-machine.path "
                           +:+ expand_env_and_home h configured)],
         Normal r)
      /\ historyPath r = VNull /\ enabled r = false /\ absolute r = VUndefined.
Proof.
  intros h wf file ws configured m EN P NE M I.
  assert (R : resolve_workspace_token h wf (expand_env_and_home h configured)
              = ([ErrorMessage ("${workspaceFolder} must starts settings time-machine.path "
                                +:+ expand_env_and_home h configured)],
                 Normal (None, None))).
  { unfold resolve_workspace_token. rewrite M. apply Nat.ltb_lt in I. rewrite I.
    reflexivity. }
  destruct (read_of_resolution h wf file ws configured _ None None EN P NE R)
    as (r & RD & HP & A & E).
  exists r. repeat split; assumption.
Qed.

Lemma X13_token_beyond_index_one_is_refused_witness :
  let h := PosixHost.host
             {[ "enabled" := VNum 1; "path" := VStr "/some/path/${workspaceFolder}/history" ]}
             ∅ [] in
  exists r,
    read h None {| fsPath := "/workspace/test.ts" |} None
    = ([ErrorMessage ("${workspaceFolder} must starts settings time-machine.path "
                      +:+ "/some/path/${workspaceFolder}/history")], Normal r)
    /\ historyPath r = VNull /\ enabled r = false /\ absolute r = VUndefined.
Proof.
  intros h.
  apply (X13_token_beyond_index_one_is_refused h None {| fsPath := "/workspace/test.ts" |} None
           "/some/path/${workspaceFolder}/history"
           {| m_index := 11; m_0 := "${workspaceFolder}"; m_1 := None |});
    try reflexivity; try discriminate.
  cbn [m_index]. lia.
Defined.

Lemma find_first {A : Type} (p : A -> bool) (l : list A) (x : A) :
  List.find p l = Some x ->
  exists before after,
    l = before ++ x :: after /\ p x = true /\ forall y, In y before -> p y = false.
Proof.
  induction l as [|a l IH]; simpl; [discriminate|].
  destruct (p a) eqn:PA.
  - intros H. inversion H; subst. exists [], l. repeat split; [exact PA | intros y []].
  - intros H. destruct (IH H) as (before & after & E & PX & B).
    exists (a :: before), after. subst l. repeat split; [exact PX|].
    intros y [Y|Y]; [subst y; exact PA | exact (B y Y)].
Qed.

(** X14.  The folder a qualified token resolves to is the first open folder,
    in the order of [workspaceFolders], that answers to the qualifier: when
    the qualifier counts as a number, the folder whose index is the integer
    [parseInt] reads in it; otherwise the folder whose name is the
    qualifier, character for character. *)
Theorem X14_qualifier_selects_first_matching_folder :
  forall (h : Host) (workspacefolder : option Uri) (expanded wsId : string) (m : RegExpMatch)
         (effects : list Effect) (resolved : string) (target : Uri),
    match_workspace_token expanded = Some m ->
    m_1 m = Some wsId ->
    wsId <> EmptyString ->
    resolve_workspace_token h workspacefolder expanded
    = (effects, Normal (Some resolved, Some target)) ->
    exists before found after,
      workspaceFolders h = Some (before ++ found :: after)
      /\ target = wf_uri found
      /\ effects = []
      /\ (if isIntegerMinusOne h wsId
          then parseInt10 wsId = Some (Z.of_nat (wf_index found))
               /\ forall f, In f before -> parseInt10 wsId <> Some (Z.of_nat (wf_index f))
          else wf_name found = wsId
               /\ forall f, In f before -> wf_name f <> wsId).
Proof.
  intros h wf expanded wsId m effects resolved target M Q QN.
  unfold resolve_workspace_token. rewrite M.
  destruct (1 <? m_index m); [discriminate|].
  rewrite Q. destruct wsId as [|c q]; [congruence|].
  destruct (workspaceFolders h) as [folders|]; [|discriminate].
  destruct (List.find _ folders) as [found|] eqn:F; [|discriminate].
  intros H. inversion H; subst; clear H.
  destruct (find_first _ _ _ F) as (before & after & E & PX & B).
  exists before, found, after. subst folders. repeat split.
  unfold folder_matches in PX, B.
  destruct (isIntegerMinusOne h (String c q)).
  - split.
    + destruct (parseInt10 (String c q)) as [z|]; [|discriminate].
      apply Z.eqb_eq in PX. now rewrite PX.
    + intros f I E. specialize (B f I). rewrite E in B.
      rewrite Z.eqb_refl in B. discriminate.
  - split.
    + apply String.eqb_eq, PX.
    + intros f I E. specialize (B f I). rewrite E, String.eqb_refl in B. discriminate.
Qed.

Lemma X14_qualifier_selects_first_matching_folder_witness :
  let one := PosixHost.folder "/workspace1" "project1" 0 in
  let two := PosixHost.folder "/workspace2" "project2" 1 in
  let h := PosixHost.host ∅ ∅ [one; two] in
  exists before found after,
    workspaceFolders h = Some (before ++ found :: after)
    /\ {| fsPath := "/workspace2" |} = wf_uri found
    /\ (@nil Effect) = []
    /\ (if isIntegerMinusOne h "1"
        then parseInt10 "1" = Some (Z.of_nat (wf_index found))
             /\ forall f, In f before -> parseInt10 "1" <> Some (Z.of_nat (wf_index f))
        else wf_name found = "1"
             /\ forall f, In f before -> wf_name f <> "1").
Proof.
  intros one two h.
  apply (X14_qualifier_selects_first_matching_folder h None
           "${workspaceFolder: 1}/custom-history" "1"
           {| m_index := 0; m_0 := "${workspaceFolder: 1}"; m_1 := Some "1" |}
           [] "/workspace2/custom-history" {| fsPath := "/workspace2" |});
    try reflexivity; discriminate.
Defined.

(** ** The layout of the store, lines 166-189 *)

(** X15.  Absolute layout.  The template resolves to a non-empty path and
    either the key [absolute] is truthy or the file has no owning root
    under mode Always: the store is [path.join(resolved, '.history')] in
    the host's separators, without any root name, and the record's
    [absolute] is the boolean true, whatever truthy value the key held. *)
Theorem X15_absolute_layout :
  forall (h : Host) (workspacefolder : option Uri) (file : Uri) (ws : option WorkspaceFolder)
         (configured resolved : string) (effects : list Effect) (hws : option Uri),
    strict_eq_num (config_get h "enabled") 0 = false ->
    config_get h "path" = VStr configured ->
    configured <> EmptyString ->
    resolve_workspace_token h workspacefolder (expand_env_and_home h configured)
    = (effects, Normal (Some resolved, hws)) ->
    resolved <> EmptyString ->
    (truthy (config_get h "absolute") = true
     \/ (workspacefolder = None /\ config_get h "enabled" = VNum 1)) ->
    exists r,
      read h workspacefolder file ws
      = (type_warnings (config_get h "enabled") (config_get h "exclude") ++ effects, Normal r)
      /\ historyPath r = VStr (replace_slashes (path_sep h) (path_join h [resolved; ".history"]))
      /\ absolute r = VBool true.
Proof.
  intros h wf file ws configured resolved effects hws EN P NE R RN C.
  destruct (read_of_resolution h wf file ws configured effects (Some resolved) hws EN P NE R)
    as (r & RD & HP & A & _).
  exists r. split; [exact RD|].
  assert (L : layout h (config_get h "enabled") wf (Some resolved) hws
              = (VStr (path_join h [resolved; ".history"]), VBool true)).
  { unfold layout. destruct resolved as [|c q]; [congruence|].
    destruct C as [T|[W E]].
    - rewrite T. reflexivity.
    - rewrite W, E. simpl. rewrite orb_true_r. reflexivity. }
  rewrite L in HP, A. split; [|exact A].
  rewrite HP. cbn [fst]. unfold to_host_separators.
  destruct (path_join h _); reflexivity.
Qed.

Lemma X15_absolute_layout_witness :
  let h := PosixHost.host {[ "enabled" := VNum 1; "path" := VStr "/custom/path" ]} ∅ [] in
  exists r,
    read h None {| fsPath := "/outside/test.ts" |} None = ([], Normal r)
    /\ historyPath r = VStr "/custom/path/.history"
    /\ absolute r = VBool true.
Proof.
  intros h.
  apply (X15_absolute_layout h None {| fsPath := "/outside/test.ts" |} None
           "/custom/path" "/custom/path" [] None);
    try reflexivity; try discriminate.
  right. split; reflexivity.
Defined.

(** X16.  Default location.  The key [path] holds no non-empty string and a
    root owns the file: in every mode but Never (a wrongly typed [enabled]
    included) the store is [path.join(root, '.history')] in the host's
    separators and [absolute] is false; the key [absolute] is not read. *)
Theorem X16_default_store_is_under_the_owning_root :
  forall (h : Host) (owner : Uri) (file : Uri) (ws : option WorkspaceFolder),
    strict_eq_num (config_get h "enabled") 0 = false ->
    path_configured h = false ->
    exists r,
      read h (Some owner) file ws
      = (type_warnings (config_get h "enabled") (config_get h "exclude"), Normal r)
      /\ historyPath r
         = VStr (replace_slashes (path_sep h) (path_join h [fsPath owner; ".history"]))
      /\ absolute r = VBool false.
Proof.
  intros h owner file ws EN P. unfold read, locate. rewrite EN. simpl negb. cbv iota.
  unfold path_configured in P.
  destruct (config_get h "path") as [| | | |[|c p]|]; try discriminate;
    (eexists; split; [rewrite app_nil_r; reflexivity|];
     cbn [historyPath absolute]; split; [|reflexivity];
     unfold to_host_separators; destruct (path_join h _); reflexivity).
Qed.

Lemma X16_default_store_is_under_the_owning_root_witness :
  let workspace := PosixHost.folder "/workspace" "test-workspace" 0 in
  let h := PosixHost.host {[ "enabled" := VBool false; "absolute" := VBool true ]}
             ∅ [workspace] in
  exists r,
    read h (Some (wf_uri workspace)) {| fsPath := "/workspace/test.ts" |} (Some workspace)
    = ([WarningMessage "Change setting: time-machine.enabled must be a number"], Normal r)
    /\ historyPath r = VStr "/workspace/.history"
    /\ absolute r = VBool false.
Proof.
  intros workspace h.
  apply (X16_default_store_is_under_the_owning_root h (wf_uri workspace)
           {| fsPath := "/workspace/test.ts" |} (Some workspace)); reflexivity.
Defined.

(** X20.  Relative layout of a template without workspace-folder token.
    The expanded path holds no token and is not empty, the key [absolute]
    is falsy and a root owns the file: in every mode but Never the store is
    [path.join(expanded, '.history', basename(root))] in the host's
    separators, each root getting a directory of its own below the shared
    location, and [absolute] is the value of the key. *)
Theorem X20_relative_layout_without_token :
  forall (h : Host) (owner : Uri) (file : Uri) (ws : option WorkspaceFolder)
         (configured : string),
    strict_eq_num (config_get h "enabled") 0 = false ->
    config_get h "path" = VStr configured ->
    configured <> EmptyString ->
    match_workspace_token (expand_env_and_home h configured) = None ->
    expand_env_and_home h configured <> EmptyString ->
    truthy (config_get h "absolute") = false ->
    exists r,
      read h (Some owner) file ws
      = (type_warnings (config_get h "enabled") (config_get h "exclude"), Normal r)
      /\ historyPath r
         = VStr (replace_slashes (path_sep h)
                   (path_join h [expand_env_and_home h configured; ".history";
                                 path_basename h (fsPath owner)]))
      /\ absolute r = config_get h "absolute".
Proof.
  intros h owner file ws configured EN P NE M XN A.
  assert (R : resolve_workspace_token h (Some owner) (expand_env_and_home h configured)
              = ([], Normal (Some (expand_env_and_home h configured), None))).
  { unfold resolve_workspace_token. rewrite M. reflexivity. }
  destruct (read_of_resolution h (Some owner) file ws configured [] _ None EN P NE R)
    as (r & RD & HP & AB & _).
  exists r. rewrite app_nil_r in RD. split; [exact RD|].
  assert (L : layout h (config_get h "enabled") (Some owner)
                (Some (expand_env_and_home h configured)) None
              = (VStr (path_join h [expand_env_and_home h configured; ".history";
                                    path_basename h (fsPath owner)]),
                 config_get h "absolute")).
  { unfold layout. destruct (expand_env_and_home h configured) as [|c q]; [congruence|].
    rewrite A. reflexivity. }
  rewrite L in HP, AB. split; [|exact AB].
  rewrite HP. cbn [fst]. unfold to_host_separators.
  destruct (path_join h _); reflexivity.
Qed.

Lemma X20_relative_layout_without_token_witness :
  let workspace := PosixHost.folder "/workspace" "workspace" 0 in
  let h := PosixHost.host
             {[ "enabled" := VNum 1; "path" := VStr "/custom/path"; "absolute" := VBool false ]}
             ∅ [workspace] in
  exists r,
    read h (Some (wf_uri workspace)) {| fsPath := "/workspace/test.ts" |} (Some workspace)
    = ([], Normal r)
    /\ historyPath r = VStr "/custom/path/.history/workspace"
    /\ absolute r = VBool false.
Proof.
  intros workspace h.
  apply (X20_relative_layout_without_token h (wf_uri workspace)
           {| fsPath := "/workspace/test.ts" |} (Some workspace) "/custom/path");
    try reflexivity; discriminate.
Defined.

(** X17.  No path and no root: when the key [path] is unset, null or the
    empty string and no root owns the file, history is disabled in every
    mode, Always included: [enabled] is false, [absolute] undefined, no
    error is shown, and [historyPath] is null under mode Never and the
    value of the key otherwise. *)
Theorem X17_no_path_and_no_root_disables :
  forall (h : Host) (file : Uri) (ws : option WorkspaceFolder),
    string_or_absent (config_get h "path") ->
    truthy (config_get h "path") = false ->
    exists r,
      read h None file ws
      = (type_warnings (config_get h "enabled") (config_get h "exclude"), Normal r)
      /\ enabled r = false
      /\ absolute r = VUndefined
      /\ historyPath r
         = (if strict_eq_num (config_get h "enabled") 0 then VNull else config_get h "path").
Proof.
  intros h file ws S T. unfold read, locate.
  destruct (strict_eq_num (config_get h "enabled") 0); simpl negb; cbv iota.
  - eexists. split; [rewrite app_nil_r; reflexivity|]. repeat split.
  - destruct (config_get h "path") as [| |b|n|[|c p]|l]; simpl in S, T;
      try contradiction; try discriminate;
      (eexists; split; [rewrite app_nil_r; reflexivity|]; repeat split).
Qed.

Lemma X17_no_path_and_no_root_disables_witness :
  let h := PosixHost.host {[ "enabled" := VNum 1; "path" := VStr "" ]} ∅ [] in
  exists r,
    read h None {| fsPath := "/outside/file.ts" |} None = ([], Normal r)
    /\ enabled r = false
    /\ absolute r = VUndefined
    /\ historyPath r = VStr "".
Proof.
  intros h.
  exact (X17_no_path_and_no_root_disables h {| fsPath := "/outside/file.ts" |} None I eq_refl).
Defined.

(** X18.  A resolved path for a file without owning root, the key
    [absolute] falsy and the mode neither Never nor Always (mode Workspace,
    or a wrongly typed [enabled]): neither branch of lines 168-179 applies,
    so the store path is the resolved template itself in the host's
    separators, no [.history] component being added; history is enabled and
    [absolute] is the value of the key. *)
Theorem X18_ownerless_file_outside_mode_always :
  forall (h : Host) (file : Uri) (ws : option WorkspaceFolder)
         (configured resolved : string) (effects : list Effect) (hws : option Uri),
    strict_eq_num (config_get h "enabled") 0 = false ->
    strict_eq_num (config_get h "enabled") 1 = false ->
    config_get h "path" = VStr configured ->
    configured <> EmptyString ->
    resolve_workspace_token h None (expand_env_and_home h configured)
    = (effects, Normal (Some resolved, hws)) ->
    resolved <> EmptyString ->
    truthy (config_get h "absolute") = false ->
    exists r,
      read h None file ws
      = (type_warnings (config_get h "enabled") (config_get h "exclude") ++ effects, Normal r)
      /\ historyPath r = VStr (replace_slashes (path_sep h) resolved)
      /\ enabled r = true
      /\ absolute r = config_get h "absolute".
Proof.
  intros h file ws configured resolved effects hws EN AL P NE R RN A.
  destruct (read_of_resolution h None file ws configured effects (Some resolved) hws EN P NE R)
    as (r & RD & HP & AB & E).
  exists r. split; [exact RD|].
  assert (L : layout h (config_get h "enabled") None (Some resolved) hws
              = (VStr resolved, config_get h "absolute")).
  { unfold layout. destruct resolved as [|c q]; [congruence|].
    rewrite A, AL. reflexivity. }
  rewrite L in HP, AB, E. cbn [fst snd] in *.
  destruct resolved as [|c q]; [congruence|].
  repeat split; assumption.
Qed.

Lemma X18_ownerless_file_outside_mode_always_witness :
  let h := PosixHost.host {[ "enabled" := VNum 2; "path" := VStr "/custom/path" ]} ∅ [] in
  exists r,
    read h None {| fsPath := "/outside/test.ts" |} None = ([], Normal r)
    /\ historyPath r = VStr "/custom/path"
    /\ enabled r = true
    /\ absolute r = VUndefined.
Proof.
  intros h.
  apply (X18_ownerless_file_outside_mode_always h {| fsPath := "/outside/test.ts" |} None
           "/custom/path" "/custom/path" [] None);
    try reflexivity; discriminate.
Defined.

(** ** [enabled], line 208 *)

Lemma gets_preserve (P : IHistorySettings -> Prop) (calls : list (Host * Uri)) :
  Forall (fun call => forall wf f ws effects r,
                        read (fst call) wf f ws = (effects, Normal r) -> P r) calls ->
  forall st,
    Forall (fun o => P (value o)) (settings st) ->
    Forall (fun o => P (value o)) (settings (gets st calls)).
Proof.
  unfold gets. induction 1 as [|[h f] calls N _ IH]; intros st I; simpl; [exact I|].
  apply IH. apply get_preserves; [exact N | exact I].
Qed.

(** X19.  As long as the key [path] has held a string, or nothing, since the
    last [clear()], every record [get] returns, cached or computed, has
    [enabled] true if and only if its [historyPath] is a non-empty
    string. *)
Theorem X19_enabled_means_a_store_path :
  forall (st : State) (calls : list (Host * Uri)) (h : Host) (file : Uri)
         (o : SettingsObject) (st' : State),
    Forall (fun call => string_or_absent (config_get (fst call) "path")) calls ->
    string_or_absent (config_get h "path") ->
    get h (gets (clear st) calls) file = (Normal o, st') ->
    enabled (value o) = true
    <-> exists p, historyPath (value o) = VStr p /\ p <> EmptyString.
Proof.
  intros st calls h file o st' TS T G.
  set (P := fun r => enabled r = true <-> exists p, historyPath r = VStr p /\ p <> EmptyString).
  assert (I : Forall (fun o => P (value o)) (settings (gets (clear st) calls))).
  { apply gets_preserve; [|constructor].
    apply List.Forall_forall. intros [h0 f0] C wf f ws effects r R.
    apply (enabled_iff_nonempty_string h0 wf f ws effects r); [|exact R].
    exact (proj1 (List.Forall_forall _ _) TS _ C). }
  destruct (get_returns h _ file o st' G) as [[C _]|(effects & R & _)].
  - exact (proj1 (List.Forall_forall _ _) I _ C).
  - exact (enabled_iff_nonempty_string h _ file _ effects (value o) T R).
Qed.

Lemma X19_enabled_means_a_store_path_witness :
  let workspace := PosixHost.folder "/workspace" "test-workspace" 0 in
  let h := PosixHost.host {[ "enabled" := VNum 1; "path" := VStr "" ]} ∅ [workspace] in
  let calls := [(h, {| fsPath := "/outside/file.ts" |})] in
  let file := {| fsPath := "/workspace/test.ts" |} in
  exists o st',
    get h (gets (clear new) calls) file = (Normal o, st')
    /\ (enabled (value o) = true
        <-> exists p, historyPath (value o) = VStr p /\ p <> EmptyString).
Proof.
  intros workspace h calls file.
  destruct (get h (gets (clear new) calls) file) as [[o|] st'] eqn:G;
    [|vm_compute in G; discriminate].
  exists o, st'. split; [reflexivity|].
  apply (X19_enabled_means_a_store_path new calls h file o st'); [| exact I | exact G].
  constructor; [exact I | constructor].
Defined.

(** ** Where the token is replaced, lines 137 and 160 *)

Lemma starts_with_take (n : nat) (t : string) : starts_with (take n t) t = true.
Proof.
  revert t. induction n as [|n IH]; intros [|c t]; simpl; try reflexivity.
  rewrite Ascii.eqb_refl, IH. reflexivity.
Qed.

Lemma starts_with_split (p s : string) :
  starts_with p s = true -> s = p +:+ drop (String.length p) s.
Proof.
  revert s. induction p as [|a p IH]; intros s; simpl; [reflexivity|].
  destruct s as [|b s]; [discriminate|].
  intros H. apply andb_prop in H. destruct H as [E H].
  apply Ascii.eqb_eq in E. subst b. simpl. rewrite <- (IH s H). reflexivity.
Qed.

Lemma take_past (x y : string) (j : nat) :
  take (String.length x + j) (x +:+ y) = x +:+ take j y.
Proof. induction x as [|c x IH]; simpl; [reflexivity | now rewrite IH]. Qed.

Lemma strip_prefix_ci_split (lit t rest : string) :
  strip_prefix_ci lit t = Some rest ->
  exists pre,
    t = pre +:+ rest /\ String.length pre = String.length lit
    /\ forall x, strip_prefix_ci lit (pre +:+ x) = Some x.
Proof.
  revert t. induction lit as [|a lit IH]; intros t; simpl.
  - intros H. inversion H; subst. exists EmptyString. repeat split.
  - destruct t as [|b t]; [discriminate|].
    destruct (Ascii.eqb (to_lower a) (to_lower b)) eqn:E; [|discriminate].
    intros H. destruct (IH t H) as (pre & T & L & X).
    exists (String b pre). subst t. repeat split.
    + simpl. now rewrite L.
    + intros x. simpl. rewrite E. apply X.
Qed.

Lemma drop_while_split (p : ascii -> bool) (s : string) :
  exists w,
    s = w +:+ drop_while p s
    /\ drop_while p w = EmptyString
    /\ drop_while p (drop_while p s) = drop_while p s.
Proof.
  induction s as [|c s (w & E & W & I)]; simpl.
  - exists EmptyString. repeat split.
  - destruct (p c) eqn:C.
    + exists (String c w). repeat split; simpl; [now rewrite <- E | now rewrite C | exact I].
    + exists EmptyString. repeat split. simpl. now rewrite C.
Qed.

Lemma drop_while_app (p : ascii -> bool) (w x : string) :
  drop_while p w = EmptyString -> drop_while p (w +:+ x) = drop_while p x.
Proof.
  induction w as [|c w IH]; simpl; [reflexivity|].
  destruct (p c); [exact IH | discriminate].
Qed.

Lemma take_while_split (p : ascii -> bool) (s : string) :
  s = take_while p s +:+ drop (String.length (take_while p s)) s.
Proof.
  induction s as [|c s IH]; simpl; [reflexivity|].
  destruct (p c); simpl; [now rewrite <- IH | reflexivity].
Qed.

Lemma take_while_take (p : ascii -> bool) (s : string) (j : nat) (tail : string) :
  j <= String.length (take_while p s) ->
  take_while p (take j s +:+ tail) = take j s +:+ take_while p tail.
Proof.
  revert j. induction s as [|c s IH]; intros j; simpl.
  - intros J. assert (j = 0) by lia. subst j. reflexivity.
  - destruct j as [|j]; [reflexivity|].
    destruct (p c) eqn:C; simpl; [|lia].
    intros J. rewrite C, IH by lia. reflexivity.
Qed.

Lemma last_brace_bound (l : string) (k : nat) :
  last_brace l = Some k -> k < String.length l.
Proof.
  revert k. induction l as [|c l IH]; intros k; simpl; [discriminate|].
  destruct (last_brace l) as [i|].
  - intros H. inversion H; subst. specialize (IH i eq_refl). lia.
  - destruct (is_char c 125); [|discriminate]. intros H. inversion H. lia.
Qed.

(** A brace that survives the cut at [k + 1] is found in any extension. *)
Lemma last_brace_take (l : string) (k : nat) (tail : string) :
  last_brace l = Some k -> last_brace (take (S k) l +:+ tail) <> None.
Proof.
  revert k. induction l as [|c l IH]; intros k; simpl; [discriminate|].
  destruct (last_brace l) as [i|] eqn:L.
  - intros H. inversion H; subst.
    specialize (IH i eq_refl).
    destruct (last_brace (take (S i) l +:+ tail)); [discriminate | contradiction].
  - destruct (is_char c 125) eqn:C; [|discriminate].
    intros H. inversion H; subst.
    destruct (last_brace (take 0 l +:+ tail)); discriminate.
Qed.

Lemma take_take_while (p : ascii -> bool) (s : string) (j : nat) :
  j <= String.length (take_while p s) -> take j (take_while p s) = take j s.
Proof.
  revert j. induction s as [|c s IH]; intros j; simpl.
  - reflexivity.
  - destruct j as [|j]; [reflexivity|].
    destruct (p c); simpl; [|lia]. intros J. rewrite IH by lia. reflexivity.
Qed.

Lemma qualifier_at_built (w1 w2 x' tail : string) (c d : ascii) :
  drop_while is_white_space w1 = EmptyString ->
  is_char c 58 = true ->
  drop_while is_white_space w2 = EmptyString ->
  is_white_space d = false ->
  last_brace (take_while (fun x => negb (is_line_terminator x)) (String d x' +:+ tail)) <> None ->
  qualifier_at (w1 +:+ String c (w2 +:+ String d x' +:+ tail)) <> None.
Proof.
  intros W1 C W2 D LB.
  assert (CW : is_white_space c = false).
  { apply is_char_eq in C. subst c. reflexivity. }
  unfold qualifier_at.
  rewrite (drop_while_app _ w1 _ W1).
  cbn [drop_while]. rewrite CW, C.
  rewrite (drop_while_app _ w2 _ W2).
  change (String d x' +:+ tail) with (String d (x' +:+ tail)) in *.
  cbn [drop_while]. rewrite D.
  destruct (last_brace _); [discriminate | contradiction].
Qed.

(** The optional group still matches when the text it matched is followed
    by something else. *)
Lemma qualifier_at_prefix (a b : string) (n : nat) (cap : string) :
  qualifier_at a = Some (n, cap) ->
  starts_with (take n a) b = true ->
  qualifier_at b <> None.
Proof.
  unfold qualifier_at at 1.
  destruct (drop_while_split is_white_space a) as (w1 & A & W1 & _).
  destruct (drop_while is_white_space a) as [|c s2] eqn:S1; [discriminate|].
  destruct (is_char c 58) eqn:C; [|discriminate].
  destruct (drop_while_split is_white_space s2) as (w2 & B & W2 & I3).
  remember (drop_while is_white_space s2) as s3 eqn:E3.
  remember (take_while (fun x => negb (is_line_terminator x)) s3) as line eqn:EL.
  destruct (last_brace line) as [k|] eqn:LB; [|discriminate].
  intros H. inversion H; subst n cap; clear H.
  pose proof (last_brace_bound line k LB) as KB.
  assert (AA : a = (w1 +:+ String c w2) +:+ s3).
  { rewrite A, B. rewrite string_app_assoc. reflexivity. }
  assert (LEN : String.length a - String.length s3 + k + 1
                = String.length (w1 +:+ String c w2) + S k).
  { rewrite AA. rewrite !string_app_length. lia. }
  rewrite LEN. rewrite AA at 1. rewrite take_past.
  intros SW. apply starts_with_split in SW.
  remember (drop (String.length ((w1 +:+ String c w2) +:+ take (S k) s3)) b) as tail.
  clear Heqtail. rewrite SW. clear SW LEN.
  destruct s3 as [|d s3'].
  { subst line. simpl in LB. discriminate. }
  assert (D : is_white_space d = false).
  { simpl in I3. destruct (is_white_space d) eqn:D; [|reflexivity].
    exfalso.
    destruct (drop_while_split is_white_space s3') as (w & E & _ & _).
    assert (L : String.length (drop_while is_white_space s3') <= String.length s3').
    { rewrite E at 2. rewrite string_app_length. lia. }
    rewrite I3 in L. simpl in L. lia. }
  change (take (S k) (String d s3')) with (String d (take k s3')).
  rewrite !string_app_assoc.
  change (String c w2 +:+ String d (take k s3') +:+ tail)
    with (String c (w2 +:+ String d (take k s3') +:+ tail)).
  apply qualifier_at_built; try assumption.
  change (String d (take k s3')) with (take (S k) (String d s3')).
  rewrite take_while_take by (rewrite <- EL; lia).
  rewrite <- (take_take_while (fun x => negb (is_line_terminator x)) (String d s3') (S k))
    by (rewrite <- EL; lia).
  rewrite <- EL.
  exact (last_brace_take line k _ LB).
Qed.

Lemma starts_with_app_self (p tail : string) : starts_with p (p +:+ tail) = true.
Proof.
  induction p as [|c p IH]; simpl; [reflexivity|].
  rewrite Ascii.eqb_refl, IH. reflexivity.
Qed.

Lemma token_at_is_prefix (t m0 : string) (q : option string) :
  workspace_token_at t = Some (m0, q) -> starts_with m0 t = true.
Proof.
  unfold workspace_token_at.
  destruct (strip_prefix_ci _ t) as [rest|]; [|discriminate].
  destruct (qualifier_at rest) as [[n cap]|].
  - remember (take (17 + n) t) as x eqn:EX. intros [= <- _]. subst x.
    apply starts_with_take.
  - destruct rest as [|c r]; [discriminate|].
    destruct (is_char c 125); [|discriminate].
    remember (take 18 t) as x eqn:EX. intros [= <- _]. subst x.
    apply starts_with_take.
Qed.

(** The expression matches wherever the text of a match stands. *)
Lemma token_at_prefix (t u m0 : string) (q : option string) :
  workspace_token_at t = Some (m0, q) ->
  starts_with m0 u = true ->
  workspace_token_at u <> None.
Proof.
  unfold workspace_token_at at 1.
  destruct (strip_prefix_ci "${workspaceFolder" t) as [rest|] eqn:SP; [|discriminate].
  destruct (strip_prefix_ci_split _ _ _ SP) as (pre & T & L & X).
  change (String.length "${workspaceFolder") with 17 in L.
  destruct (qualifier_at rest) as [[n cap]|] eqn:Q.
  - remember (take (17 + n) t) as x eqn:EX. intros [= <- _]. subst x.
    rewrite T, <- L, take_past.
    intros SW. apply starts_with_split in SW. rewrite SW.
    unfold workspace_token_at. rewrite string_app_assoc, X.
    pose proof (qualifier_at_prefix rest
                  (take n rest +:+ drop (String.length (pre +:+ take n rest)) u) n cap Q
                  (starts_with_app_self _ _)) as NQ.
    match goal with
    | |- context [qualifier_at ?x] => destruct (qualifier_at x) as [[n' q']|]
    end; [discriminate | contradiction].
  - destruct rest as [|c r]; [discriminate|].
    destruct (is_char c 125) eqn:C; [|discriminate].
    remember (take 18 t) as x eqn:EX. intros [= <- _]. subst x.
    change 18 with (17 + 1). rewrite T, <- L, take_past.
    change (take 1 (String c r)) with (String c EmptyString).
    intros SW. apply starts_with_split in SW. rewrite SW.
    unfold workspace_token_at. rewrite string_app_assoc, X.
    change (String c EmptyString +:+ ?x) with (String c x).
    match goal with
    | |- context [qualifier_at ?x] => destruct (qualifier_at x) as [[n' q']|]
    end; [discriminate|].
    rewrite C. discriminate.
Qed.

Lemma index_of_sound (p s : string) (i : nat) :
  index_of p s = Some i ->
  s = take i s +:+ p +:+ drop (i + String.length p) s.
Proof.
  revert i. induction s as [|c s IH]; intros i.
  - cbn [index_of]. destruct (starts_with p EmptyString) eqn:SW; [|discriminate].
    intros H. inversion H; subst. apply starts_with_split in SW. exact SW.
  - cbn [index_of]. destruct (starts_with p (String c s)) eqn:SW.
    + intros H. inversion H; subst. apply starts_with_split in SW. exact SW.
    + destruct (index_of p s) as [j|]; [|discriminate].
      intros H. inversion H; subst. simpl. rewrite <- (IH j eq_refl). reflexivity.
Qed.

Lemma match_position (s : string) :
  forall m,
    match_workspace_token s = Some m ->
    index_of (m_0 m) s = Some (m_index m)
    /\ exists t, workspace_token_at t = Some (m_0 m, m_1 m).
Proof.
  induction s as [|c r IH]; intros m.
  - cbn [match_workspace_token].
    destruct (workspace_token_at EmptyString) as [[m0 m1]|] eqn:W; [|discriminate].
    vm_compute in W. discriminate.
  - cbn [match_workspace_token].
    destruct (workspace_token_at (String c r)) as [[m0 m1]|] eqn:W.
    + intros H. inversion H; subst m; clear H. cbn [m_0 m_1 m_index]. split.
      * cbn [index_of]. rewrite (token_at_is_prefix _ _ _ W). reflexivity.
      * exists (String c r). exact W.
    + destruct (match_workspace_token r) as [m'|] eqn:M; [|discriminate].
      intros H. inversion H; subst m; clear H. cbn [m_0 m_1 m_index].
      destruct (IH m' eq_refl) as [I (t & T)]. split; [|exists t; exact T].
      cbn [index_of]. destruct (starts_with (m_0 m') (String c r)) eqn:SW.
      * exfalso. exact (token_at_prefix t (String c r) _ _ T SW W).
      * rewrite I. reflexivity.
Qed.

(** X21.  The token is replaced where it was matched.  Line 160 replaces the
    first occurrence of the matched text, not the match itself; the first
    occurrence is the match: the path is what precedes the match, the
    matched text and what follows it, and the replacement leaves both
    sides as they are.  With a folder path free of dollar signs the result
    is the path before the token, the folder path and the path after the
    token. *)
Theorem X21_token_is_replaced_where_it_was_matched :
  forall (historyPath : string) (m : RegExpMatch) (folderPath : string),
    match_workspace_token historyPath = Some m ->
    let before := take (m_index m) historyPath in
    let after := drop (m_index m + String.length (m_0 m)) historyPath in
    historyPath = before +:+ m_0 m +:+ after
    /\ replace_first historyPath (m_0 m) folderPath
       = before +:+ get_substitution (m_0 m) before after folderPath +:+ after
    /\ (has_char 36 folderPath = false ->
        replace_first historyPath (m_0 m) folderPath = before +:+ folderPath +:+ after).
Proof.
  intros s m repl M before after.
  destruct (match_position s m M) as [I _].
  split; [exact (index_of_sound _ _ _ I)|].
  assert (R : replace_first s (m_0 m) repl
              = before +:+ get_substitution (m_0 m) before after repl +:+ after).
  { unfold replace_first. rewrite I. reflexivity. }
  split; [exact R|].
  intros D. rewrite R, (get_substitution_plain _ _ _ _ D). reflexivity.
Qed.

Lemma X21_token_is_replaced_where_it_was_matched_witness :
  let m := {| m_index := 1; m_0 := "${workspaceFolder: 0}"; m_1 := Some "0" |} in
  match_workspace_token "/${workspaceFolder: 0}/store" = Some m
  /\ replace_first "/${workspaceFolder: 0}/store" (m_0 m) "/workspace" = "//workspace/store".
Proof.
  intros m.
  assert (M : match_workspace_token "/${workspaceFolder: 0}/store" = Some m) by reflexivity.
  split; [exact M|].
  exact (proj2 (proj2 (X21_token_is_replaced_where_it_was_matched
                         "/${workspaceFolder: 0}/store" m "/workspace" M)) eq_refl).
Defined.

(** ** The shape of a match, line 137 *)

Lemma match_at_head (s m0 : string) (m1 : option string) :
  workspace_token_at s = Some (m0, m1) ->
  match_workspace_token s = Some {| m_index := 0; m_0 := m0; m_1 := m1 |}.
Proof. intros W. destruct s; cbn [match_workspace_token]; rewrite W; reflexivity. Qed.

Lemma strip_prefix_ci_app (l1 l2 t : string) :
  strip_prefix_ci (l1 +:+ l2) t
  = match strip_prefix_ci l1 t with
    | Some r => strip_prefix_ci l2 r
    | None => None
    end.
Proof.
  revert t. induction l1 as [|a l1 IH]; intros t; simpl.
  - destruct l2; reflexivity.
  - destruct t as [|b t]; [reflexivity|].
    destruct (Ascii.eqb (to_lower a) (to_lower b)); [apply IH | reflexivity].
Qed.

Lemma string_app_nil_r (s : string) : s +:+ EmptyString = s.
Proof. induction s as [|c s IH]; simpl; [reflexivity | now rewrite IH]. Qed.

Lemma closing_brace_only (c : ascii) :
  Ascii.eqb (to_lower "}") (to_lower c) = true -> c = "}"%char.
Proof.
  destruct c as [[] [] [] [] [] [] [] []]; vm_compute; intros H;
    solve [reflexivity | discriminate].
Qed.

(** X22.  The token is recognised in any letter case: a text that reads
    [${workspaceFolder}] up to the case of its ASCII letters, at the head
    of the path, is the match, at index 0 and without qualifier. *)
Theorem X22_token_in_any_letter_case :
  forall (token rest : string),
    strip_prefix_ci "${workspaceFolder}" token = Some EmptyString ->
    match_workspace_token (token +:+ rest)
    = Some {| m_index := 0; m_0 := token; m_1 := None |}.
Proof.
  intros token rest S. apply match_at_head.
  change "${workspaceFolder}" with ("${workspaceFolder" +:+ "}") in S.
  rewrite strip_prefix_ci_app in S.
  destruct (strip_prefix_ci "${workspaceFolder" token) as [r|] eqn:SP; [|discriminate].
  destruct (strip_prefix_ci_split _ _ _ SP) as (pre & T & L & X).
  change (String.length "${workspaceFolder") with 17 in L.
  destruct r as [|c r]; [discriminate|].
  cbn [strip_prefix_ci] in S.
  destruct (Ascii.eqb (to_lower "}") (to_lower c)) eqn:E; [|discriminate].
  apply closing_brace_only in E. subst c.
  destruct r; [|discriminate]. clear S.
  unfold workspace_token_at. rewrite T, string_app_assoc, X.
  assert (Q : qualifier_at ("}" +:+ rest) = None) by reflexivity.
  rewrite Q.
  assert (K : take 18 (pre +:+ "}" +:+ rest) = pre +:+ "}").
  { rewrite <- string_app_assoc.
    replace 18 with (String.length (pre +:+ "}") + 0)
      by (rewrite string_app_length, L; reflexivity).
    rewrite take_past. change (take 0 rest) with EmptyString.
    apply string_app_nil_r. }
  rewrite K. reflexivity.
Qed.

Lemma X22_token_in_any_letter_case_witness :
  match_workspace_token ("${WORKSPACEfolder}" +:+ "/history")
  = Some {| m_index := 0; m_0 := "${WORKSPACEfolder}"; m_1 := None |}.
Proof.
  exact (X22_token_in_any_letter_case "${WORKSPACEfolder}" "/history" eq_refl).
Defined.

Lemma match_at_index (s : string) :
  forall m,
    match_workspace_token s = Some m ->
    workspace_token_at (drop (m_index m) s) = Some (m_0 m, m_1 m).
Proof.
  induction s as [|c r IH]; intros m.
  - cbn [match_workspace_token].
    destruct (workspace_token_at EmptyString) as [[m0 m1]|] eqn:W; [|discriminate].
    vm_compute in W. discriminate.
  - cbn [match_workspace_token].
    destruct (workspace_token_at (String c r)) as [[m0 m1]|] eqn:W.
    + intros [= <-]. exact W.
    + destruct (match_workspace_token r) as [m'|] eqn:M; [|discriminate].
      intros [= <-]. cbn [m_index m_0 m_1 drop]. exact (IH m' eq_refl).
Qed.

Lemma drop_drop (i j : nat) (s : string) : drop j (drop i s) = drop (i + j) s.
Proof.
  revert s. induction i as [|i IH]; intros s; [reflexivity|].
  destruct s as [|c s]; simpl; [destruct j; reflexivity | apply IH].
Qed.

Lemma drop_past (x y : string) (j : nat) :
  drop (String.length x + j) (x +:+ y) = drop j y.
Proof. induction x as [|c x IH]; simpl; [reflexivity | exact IH]. Qed.

Lemma take_length (n : nat) (s : string) :
  n <= String.length s -> String.length (take n s) = n.
Proof.
  revert s. induction n as [|n IH]; intros s; [reflexivity|].
  destruct s as [|c s]; simpl; [lia|]. intros H. rewrite IH by lia. reflexivity.
Qed.

Lemma take_while_length (p : ascii -> bool) (s : string) :
  String.length (take_while p s) <= String.length s.
Proof.
  induction s as [|c s IH]; simpl; [lia|]. destruct (p c); simpl; lia.
Qed.

Lemma take_while_drop (p : ascii -> bool) (s : string) (j : nat) :
  j <= String.length (take_while p s) ->
  take_while p (drop j s) = drop j (take_while p s).
Proof.
  revert j. induction s as [|c s IH]; intros j; simpl.
  - destruct j; reflexivity.
  - destruct j as [|j]; [simpl; reflexivity|].
    destruct (p c) eqn:C; simpl; [|lia]. intros J. apply IH. lia.
Qed.

(** Behind the last brace of a line there is no brace. *)
Lemma last_brace_is_last (l : string) (k : nat) :
  last_brace l = Some k -> has_char 125 (drop (S k) l) = false.
Proof.
  revert k. induction l as [|c l IH]; intros k; simpl; [discriminate|].
  destruct (last_brace l) as [i|] eqn:L.
  - intros [= <-]. exact (IH i eq_refl).
  - destruct (is_char c 125); [|discriminate]. intros [= <-].
    clear IH. change (drop 0 l) with l.
    induction l as [|d l IHl]; simpl; [reflexivity|].
    simpl in L. destruct (last_brace l); [discriminate|].
    destruct (is_char d 125); [discriminate|]. exact (IHl eq_refl).
Qed.

Lemma qualifier_at_greedy (a : string) (n : nat) (cap : string) :
  qualifier_at a = Some (n, cap) ->
  n <= String.length a
  /\ has_char 125 (take_while (fun x => negb (is_line_terminator x)) (drop n a)) = false
  /\ has_char 10 cap = false /\ has_char 13 cap = false.
Proof.
  unfold qualifier_at.
  destruct (drop_while_split is_white_space a) as (w1 & A & _ & _).
  destruct (drop_while is_white_space a) as [|c s2] eqn:S1; [discriminate|].
  destruct (is_char c 58); [|discriminate].
  destruct (drop_while_split is_white_space s2) as (w2 & B & _ & _).
  remember (drop_while is_white_space s2) as s3 eqn:E3.
  remember (take_while (fun x => negb (is_line_terminator x)) s3) as line eqn:EL.
  destruct (last_brace line) as [k|] eqn:LB; [|discriminate].
  intros [= <- <-].
  pose proof (last_brace_bound line k LB) as KB.
  pose proof (take_while_length (fun x => negb (is_line_terminator x)) s3) as TL.
  rewrite <- EL in TL.
  assert (AA : a = (w1 +:+ String c w2) +:+ s3).
  { rewrite A, B. rewrite string_app_assoc. reflexivity. }
  assert (LEN : String.length a - String.length s3 + k + 1
                = String.length (w1 +:+ String c w2) + S k).
  { rewrite AA. rewrite !string_app_length. lia. }
  rewrite LEN. split; [rewrite AA, !string_app_length; lia|].
  split.
  - rewrite AA at 1. rewrite drop_past.
    rewrite take_while_drop by (rewrite <- EL; lia).
    rewrite <- EL. exact (last_brace_is_last line k LB).
  - assert (NL : forall l j,
               has_char 10 (take j (take_while (fun x => negb (is_line_terminator x)) l)) = false
               /\ has_char 13 (take j (take_while (fun x => negb (is_line_terminator x)) l))
                  = false).
    { induction l as [|d l IHl]; intros j; simpl.
      - destruct j; split; reflexivity.
      - destruct (negb (is_line_terminator d)) eqn:D; [|destruct j; split; reflexivity].
        destruct j as [|j]; [split; reflexivity|]. simpl.
        destruct (IHl j) as [H10 H13]. rewrite H10, H13.
        unfold is_line_terminator in D. apply negb_true_iff, orb_false_elim in D.
        destruct D as [D10 D13]. unfold is_char. rewrite D10, D13. split; reflexivity. }
    rewrite EL. apply NL.
Qed.

(** X23.  The qualifier is greedy: it runs up to the last closing brace of
    its line, so that behind a match with a qualifier no closing brace is
    left before the next line terminator (in [${workspaceFolder: a}/b}] the
    qualifier is [a}/b]); the qualifier itself holds no line terminator. *)
Theorem X23_qualifier_runs_to_the_last_brace :
  forall (historyPath : string) (m : RegExpMatch) (wsId : string),
    match_workspace_token historyPath = Some m ->
    m_1 m = Some wsId ->
    has_char 125
      (take_while (fun x => negb (is_line_terminator x))
         (drop (m_index m + String.length (m_0 m)) historyPath)) = false
    /\ has_char 10 wsId = false /\ has_char 13 wsId = false.
Proof.
  intros s m q M Q.
  pose proof (match_at_index s m M) as W. rewrite Q in W.
  rewrite <- drop_drop.
  remember (drop (m_index m) s) as t eqn:ET. clear ET M.
  revert W. unfold workspace_token_at.
  destruct (strip_prefix_ci "${workspaceFolder" t) as [rest|] eqn:SP; [|discriminate].
  destruct (strip_prefix_ci_split _ _ _ SP) as (pre & T & L & _).
  change (String.length "${workspaceFolder") with 17 in L.
  destruct (qualifier_at rest) as [[n cap]|] eqn:QA.
  - remember (take (17 + n) t) as x eqn:EX. intros [= <- <-]. subst x.
    destruct (qualifier_at_greedy rest n cap QA) as (NB & G & N10 & N13).
    split; [|split; assumption].
    rewrite take_length by (rewrite T, string_app_length; lia).
    assert (L' : 17 + n = String.length pre + n) by lia.
    rewrite T, L', drop_past. exact G.
  - destruct rest as [|c r]; [discriminate|].
    destruct (is_char c 125); [|discriminate].
    remember (take 18 t) as x eqn:EX. intros H. discriminate H.
Qed.

Lemma X23_qualifier_runs_to_the_last_brace_witness :
  let m := {| m_index := 0; m_0 := "${workspaceFolder: a}/b}"; m_1 := Some "a}/b" |} in
  match_workspace_token "${workspaceFolder: a}/b}/c" = Some m
  /\ has_char 125 "/c" = false.
Proof.
  intros m.
  assert (M : match_workspace_token "${workspaceFolder: a}/b}/c" = Some m) by reflexivity.
  split; [exact M|].
  exact (proj1 (X23_qualifier_runs_to_the_last_brace
                  "${workspaceFolder: a}/b}/c" m "a}/b" M eq_refl)).
Defined.
